(** * OpenFOAM hardware check: the requirement-scoring engine

    A shallow embedding of [hardware_checker.py] and [ofhc.py], the two
    variants of the CFD bottleneck estimator, and the properties of their
    ratio scorer, resource estimators and ranking step.

    Modelling conventions.
    - Numbers.  Python [int] and [float] values are embedded as exact
      rationals ([Q]); [==] is [Qeq].  Rounding of binary64, infinities and
      NaN are outside the model, so every equation on ratios below is an
      equation of the exact values.  An integer that the code obtains by
      rounding a float (a percentage, the number of the advisory) is stated
      as a nearest integer, since binary64 can decide an exact tie the other
      way; [binary64] holds the two RAM-channel quotients on primitive
      floats, to show where the computed values of the scripts part.
    - Exceptions.  The only exception the arithmetic of the program can raise
      on rationals is [ZeroDivisionError]; a computation is a function from
      the world to an outcome and the new world.
    - The world holds the module-level names of the script and the lines
      written to standard output by [print].
    - Strings are byte strings holding UTF-8; [py_len] counts code points as
      Python's [len] does.
    - [estimate_storage_requirements] is called by neither script; it is
      embedded with the text Python gives a float left as a parameter. *)

From Stdlib Require Import ZArith QArith Qround Qabs String Ascii List Bool.
From Stdlib Require Import Lia Lqa Permutation Sorted DecimalString DecimalPos.
From Stdlib Require Import PrimFloat.
Import ListNotations.

Local Open Scope string_scope.
Local Open Scope Q_scope.

(** ** Python numbers on exact rationals *)

Module PyNum.

(** [round(x)] with one argument: nearest integer, ties to even. *)
Definition round (x : Q) : Z :=
  let f := Qfloor x in
  match Qcompare (x - inject_Z f) (1 # 2) with
  | Lt => f
  | Gt => (f + 1)%Z
  | Eq => if Z.even f then f else (f + 1)%Z
  end.

(** [int(x)]: truncation towards zero. *)
Definition int (x : Q) : Z :=
  if Qle_bool 0 x then Qfloor x else Qceiling x.

(** [abs(x)]. *)
Definition abs (x : Q) : Q := Qabs x.

(** [x < y] and [x > y] on numbers. *)
Definition lt (x y : Q) : bool := negb (Qle_bool y x).
Definition gt (x y : Q) : bool := lt y x.

(** [x == 0]. *)
Definition is_zero (x : Q) : bool := Qeq_bool x 0.

End PyNum.

(** ** Python strings and the format mini-language *)

Module PyStr.

(** [str(n)] of an integer. *)
Definition of_Z (n : Z) : string := NilZero.string_of_int (Z.to_int n).

(** A byte starts a code point unless it is a UTF-8 continuation byte. *)
Definition starts_code_point (c : ascii) : bool :=
  negb (N.land (N_of_ascii c) 192 =? 128)%N.

(** [len(s)]: the number of code points. *)
Fixpoint py_len (s : string) : nat :=
  match s with
  | EmptyString => 0
  | String c s' => (if starts_code_point c then 1 else 0) + py_len s'
  end.

Fixpoint spaces (n : nat) : string :=
  match n with
  | O => ""
  | S n' => String " " (spaces n')
  end.

(** [f'{s:<w}']: left-aligned in a field of width [w]. *)
Definition ljust (s : string) (w : nat) : string :=
  s ++ spaces (w - py_len s).

Fixpoint zeros (n : nat) : string :=
  match n with
  | O => ""
  | S n' => String "0" (zeros n')
  end.

(** Right-aligned with zeros: the fractional digits of a fixed-point
    number. *)
Definition zfill (s : string) (w : nat) : string :=
  zeros (w - String.length s) ++ s.

(** The [,] option: a comma between groups of three digits, counted from
    the right.  [group_rev] walks the reversed digits; [k] is the number of
    digits still missing in the current group. *)
Fixpoint group_rev (l : list ascii) (k : nat) : list ascii :=
  match l with
  | [] => []
  | c :: l' =>
      match k with
      | O => ","%char :: c :: group_rev l' 2
      | S k' => c :: group_rev l' k'
      end
  end.

Definition thousands (digits : string) : string :=
  string_of_list_ascii
    (rev (group_rev (rev (list_ascii_of_string digits)) 3)).

(** [f'{n:,}'] of an integer. *)
Definition format_comma_d (n : Z) : string :=
  if (n <? 0)%Z then "-" ++ thousands (of_Z (- n)) else thousands (of_Z n).

(** [f'{val:,.{digits}f}']: fixed-point notation with [digits] decimals,
    the value rounded to nearest with ties to even, a sign only for
    negative values, and thousands separators in the integer part. *)
Definition format_comma_f (val : Q) (digits : nat) : string :=
  let scale := (10 ^ Z.of_nat digits)%Z in
  let scaled := PyNum.round (Qabs val * inject_Z scale) in
  let sign := if PyNum.lt val 0 then "-" else "" in
  let int_part := thousands (of_Z (scaled / scale)) in
  match digits with
  | O => sign ++ int_part
  | S _ => sign ++ int_part ++ "." ++ zfill (of_Z (scaled mod scale)) digits
  end.

End PyStr.

(** ** The world of a run, exceptions and the computation monad *)

(** The module namespace maps the module-level names of a script to their
    values; [stdout] holds the printed lines, oldest first. *)
Record World := mkWorld {
  module_names : list (string * Q);
  stdout : list string
}.

Inductive exn := ZeroDivisionError.

Inductive outcome (A : Type) :=
| Returned (a : A)
| Raised (e : exn).

Arguments Returned {A} a.
Arguments Raised {A} e.

Definition Py (A : Type) : Type := World -> outcome A * World.

Definition ret {A} (a : A) : Py A := fun w => (Returned a, w).

Definition bind {A B} (m : Py A) (k : A -> Py B) : Py B :=
  fun w =>
    match m w with
    | (Returned a, w') => k a w'
    | (Raised e, w') => (Raised e, w')
    end.

Definition raise {A} (e : exn) : Py A := fun w => (Raised e, w).

Notation "x <- m ;; k" := (bind m (fun x => k))
  (at level 61, m at next level, right associativity).
Notation "m ;;; k" := (bind m (fun _ => k))
  (at level 61, right associativity).

(** [print(line)]. *)
Definition print (line : string) : Py unit :=
  fun w => (Returned tt, mkWorld (module_names w) (stdout w ++ [line])).

(** [a / b]: true division, raising on a zero divisor. *)
Definition truediv (a b : Q) : Py Q :=
  if PyNum.is_zero b then raise ZeroDivisionError else ret (a / b).

(** [for x in l: body(x)]. *)
Fixpoint for_each {A} (l : list A) (body : A -> Py unit) : Py unit :=
  match l with
  | [] => ret tt
  | x :: l' => body x ;;; for_each l' body
  end.

(** ** [sorted(l, key=...)]

    The built-in is a stable sort that compares keys with [<] only; it is
    embedded as a stable insertion sort.  [insert_by_key] puts [x], which
    precedes all of [l] in the input, in front of the first element whose key
    is not smaller than its own. *)
Section Sorted.
Context {A : Type} (key : A -> Q).

Fixpoint insert_by_key (x : A) (l : list A) : list A :=
  match l with
  | [] => [x]
  | y :: l' =>
      if PyNum.lt (key y) (key x)
      then y :: insert_by_key x l'
      else x :: y :: l'
  end.

Definition sorted (l : list A) : list A :=
  fold_right insert_by_key [] l.

(** [a] may stand before [b] in a list ascending by key. *)
Definition key_le (a b : A) : Prop := key a <= key b.
End Sorted.

(** ** Code shared by the two scripts

    [checked_requirements], [estimate_bottleneck_cpu_speed],
    [estimate_bottleneck_ram_capacity] and
    [estimate_gpu_vram_recommendations] have the same text in
    [hardware_checker.py] and [ofhc.py]. *)

(** The tuple [(ratio, ratio_fmt, title, actual_fmt, target_fmt, mark)]. *)
Record result := mkResult {
  ratio : Q;
  ratio_fmt : string;
  title : string;
  actual_fmt : string;
  target_fmt : string;
  mark : string
}.

Definition fail_mark : string := "[✗]".
Definition pass_mark : string := "[✓]".

Module Shared.

(** The inner function [fmt] of [checked_requirements].  Its argument is
    always a number here (the division before it has succeeded), so the
    [str(val)] branch is not reached. *)
Definition fmt (val : Q) : string :=
  if PyNum.is_zero val then "0"
  else
    let digits :=
      (3 - Z.of_nat (PyStr.py_len (PyStr.of_Z (PyNum.int (PyNum.abs val)))))%Z in
    let digits := Z.max digits 0 in
    PyStr.format_comma_f val (Z.to_nat digits).

Definition checked_requirements (title : string) (numerator denominator : Q)
  : Py result :=
  ratio <- truediv numerator denominator ;;
  let mark := if PyNum.lt ratio 1 then fail_mark else pass_mark in
  let ratio_fmt := (PyStr.of_Z (PyNum.round (ratio * 100)) ++ " %")%string in
  let actual_fmt := fmt numerator in
  let target_fmt := fmt denominator in
  ret (mkResult ratio ratio_fmt title actual_fmt target_fmt mark).

Definition estimate_bottleneck_cpu_speed (cpu_speed_ghz : Q) : Py result :=
  let reference_ghz := 3 in
  checked_requirements "CPU Clock-Speed (GHZ)" cpu_speed_ghz reference_ghz.

(** Divisions by a non-zero literal cannot raise and are written with the
    rational division. *)
Definition estimate_bottleneck_ram_capacity
  (num_cells actual_ram_capacity_gb : Q) : Py result :=
  let min_gb_ram_per_million_cells := 2 in
  let required_ram_capacity_gb :=
    (num_cells / 1000000) * min_gb_ram_per_million_cells in
  checked_requirements "RAM Capacity (GB)"
    actual_ram_capacity_gb required_ram_capacity_gb.

Definition estimate_gpu_vram_recommendations (num_cells gpu_vram_gb : Q)
  : Py result :=
  let recommended_vram_gb_per_million_cells := 1 / 12 in
  let recommended_vram_gb :=
    num_cells / 1000000 * recommended_vram_gb_per_million_cells in
  checked_requirements "Virtual RAM (GB)" gpu_vram_gb recommended_vram_gb.

(** One row of the report:
    [f'{title:<22} Actual: {actual_fmt:<10} Target: {target_fmt:<10} {ratio_fmt:<5} {mark:<5}']. *)
Definition row (r : result) : string :=
  (PyStr.ljust (title r) 22 ++ " Actual: " ++ PyStr.ljust (actual_fmt r) 10
    ++ " Target: " ++ PyStr.ljust (target_fmt r) 10
    ++ " " ++ PyStr.ljust (ratio_fmt r) 5
    ++ " " ++ PyStr.ljust (mark r) 5)%string.

(** The advisory of [estimate_bottleneck_cpu_count]. *)
Definition advisory (limit : Z) : string :=
  ("Do not use all cores for computing. Limit the simulation to "
     ++ PyStr.of_Z limit)%string.

End Shared.

Import Shared.

(** ** [hardware_checker.py]: flat core count *)

Module hardware_checker.

Definition NUM_CELLS : Q := 10000000.
Definition RAM_CAPACITY_GB : Q := 64.
Definition NUM_RAM_CHANNELS : Q := 4.
Definition RAM_SPEED_MTS : Q := 2700.
Definition NUM_CPU_CORES : Q := 20.
Definition CPU_SPEED_GHZ : Q := 2.
Definition CPU_L3_CACHE_CAPACITY_MB : Q := 64.
Definition GPU_VRAM_GB : Q := 0.

(** The namespace of the module once its constants are bound. *)
Definition module_namespace : list (string * Q) :=
  [ ("num_cells", NUM_CELLS); ("NUM_CELLS", NUM_CELLS);
    ("RAM_CAPACITY_GB", RAM_CAPACITY_GB);
    ("NUM_RAM_CHANNELS", NUM_RAM_CHANNELS);
    ("RAM_SPEED_MTS", RAM_SPEED_MTS);
    ("NUM_CPU_CORES", NUM_CPU_CORES);
    ("CPU_SPEED_GHZ", CPU_SPEED_GHZ);
    ("CPU_L3_CACHE_CAPACITY_MB", CPU_L3_CACHE_CAPACITY_MB);
    ("GPU_VRAM_GB", GPU_VRAM_GB) ]%string.

Definition estimate_bottleneck_cpu_count (num_cells num_cpu_cores : Q)
  : Py result :=
  let min_cells_per_core := 50000 in
  actual_cells_per_core <- truediv num_cells num_cpu_cores ;;
  min_ratio_cpu_count <- truediv min_cells_per_core actual_cells_per_core ;;
  (if PyNum.gt min_ratio_cpu_count 1
   then limit <- truediv num_cells min_ratio_cpu_count ;;
        print (advisory (PyNum.round limit))
   else ret tt) ;;;
  let max_cells_per_core := 100000 in
  let required_num_cores := num_cells / max_cells_per_core in
  checked_requirements "CPU Cores" num_cpu_cores required_num_cores.

Definition estimate_bottleneck_cpu_l3_cache
  (num_cores cpu_l3_cache_capacity_mb : Q) : Py result :=
  let reference_mb_per_core := 2 in
  let required_cache_mb := num_cores * reference_mb_per_core in
  checked_requirements "CPU L3 Cache (MB)"
    cpu_l3_cache_capacity_mb required_cache_mb.

Definition estimate_bottleneck_ram_channels (num_cores num_ram_channels : Q)
  : Py result :=
  let max_cores_per_ram_channel := 4 in
  cores_per_channel <- truediv num_cores num_ram_channels ;;
  checked_requirements "RAM Channels"
    max_cores_per_ram_channel cores_per_channel.

Definition estimate_bottleneck_ram_bandwidth
  (num_cpu_cores ram_speed_mts num_ram_channels : Q) : Py result :=
  let required_bandwidth_per_core_gbs := 2 in
  let bytes_per_transfer := 8 in
  let theoretical_bandwidth_gbs :=
    ram_speed_mts * 1000000 * bytes_per_transfer * num_ram_channels
      / 1000000000 in
  let bandwidth_efficiency := 7 # 10 in
  let actual_bandwidth_gbs :=
    theoretical_bandwidth_gbs * bandwidth_efficiency in
  let required_bandwidth_gbs :=
    num_cpu_cores * required_bandwidth_per_core_gbs in
  checked_requirements "RAM Bandwidth (GB/s)"
    actual_bandwidth_gbs required_bandwidth_gbs.

(** The list [functions] of [estimate_cfd_requirements], its elements
    evaluated from left to right. *)
Definition functions
  (num_cells ram_capacity_gb num_ram_channels ram_speed_mts num_cpu_cores
     cpu_speed_ghz cpu_l3_cache_capacity_mb gpu_vram_gb : Q)
  : Py (list result) :=
  r1 <- estimate_bottleneck_ram_capacity num_cells ram_capacity_gb ;;
  r2 <- estimate_bottleneck_ram_channels num_cpu_cores num_ram_channels ;;
  r3 <- estimate_bottleneck_ram_bandwidth
          num_cpu_cores ram_speed_mts num_ram_channels ;;
  r4 <- estimate_bottleneck_cpu_count num_cells num_cpu_cores ;;
  r5 <- estimate_bottleneck_cpu_speed cpu_speed_ghz ;;
  r6 <- estimate_bottleneck_cpu_l3_cache
          num_cpu_cores cpu_l3_cache_capacity_mb ;;
  r7 <- estimate_gpu_vram_recommendations num_cells gpu_vram_gb ;;
  ret [r1; r2; r3; r4; r5; r6; r7].

(** [functions] after [functions = sorted(functions, key=lambda f: f[0])]. *)
Definition ranked
  (num_cells ram_capacity_gb num_ram_channels ram_speed_mts num_cpu_cores
     cpu_speed_ghz cpu_l3_cache_capacity_mb gpu_vram_gb : Q)
  : Py (list result) :=
  fs <- functions num_cells ram_capacity_gb num_ram_channels ram_speed_mts
          num_cpu_cores cpu_speed_ghz cpu_l3_cache_capacity_mb gpu_vram_gb ;;
  ret (sorted ratio fs).

Definition estimate_cfd_requirements
  (num_cells ram_capacity_gb num_ram_channels ram_speed_mts num_cpu_cores
     cpu_speed_ghz cpu_l3_cache_capacity_mb gpu_vram_gb : Q)
  : Py unit :=
  fs <- ranked num_cells ram_capacity_gb num_ram_channels ram_speed_mts
          num_cpu_cores cpu_speed_ghz cpu_l3_cache_capacity_mb gpu_vram_gb ;;
  for_each fs (fun r => print (row r)).

(** The world in which the script starts. *)
Definition initial_world : World := mkWorld module_namespace [].

(** The script run as [__main__]. *)
Definition main : Py unit :=
  print "Checking the various possible bottlenecks" ;;;
  estimate_cfd_requirements NUM_CELLS RAM_CAPACITY_GB NUM_RAM_CHANNELS
    RAM_SPEED_MTS NUM_CPU_CORES CPU_SPEED_GHZ CPU_L3_CACHE_CAPACITY_MB
    GPU_VRAM_GB.

End hardware_checker.

(** ** [ofhc.py]: processors times cores per processor *)

Module ofhc.

Definition NUM_CELLS : Q := 10000000.
Definition RAM_CAPACITY_GB : Q := 64.
Definition NUM_RAM_CHANNELS : Q := 4.
Definition RAM_SPEED_MTS : Q := 2133.
Definition NUM_PROCESSORS : Q := 2.
Definition CPU_SPEED_GHZ : Q := 22 # 10.
Definition NUM_CPU_CORES_PER_PROCESSOR : Q := 10.
Definition L3_CACHE_CAPACITY_MB_PER_PROCESSOR : Q := 25.
Definition GPU_VRAM_GB : Q := 0.

Definition module_namespace : list (string * Q) :=
  [ ("num_cells", NUM_CELLS); ("NUM_CELLS", NUM_CELLS);
    ("RAM_CAPACITY_GB", RAM_CAPACITY_GB);
    ("NUM_RAM_CHANNELS", NUM_RAM_CHANNELS);
    ("RAM_SPEED_MTS", RAM_SPEED_MTS);
    ("NUM_PROCESSORS", NUM_PROCESSORS);
    ("CPU_SPEED_GHZ", CPU_SPEED_GHZ);
    ("NUM_CPU_CORES_PER_PROCESSOR", NUM_CPU_CORES_PER_PROCESSOR);
    ("L3_CACHE_CAPACITY_MB_PER_PROCESSOR", L3_CACHE_CAPACITY_MB_PER_PROCESSOR);
    ("GPU_VRAM_GB", GPU_VRAM_GB) ]%string.

Definition estimate_bottleneck_cpu_count
  (num_cells num_processors num_cpu_cores : Q) : Py result :=
  let min_cells_per_core := 50000 in
  actual_cells_per_core <-
    truediv num_cells (num_cpu_cores * num_processors) ;;
  min_ratio_cpu_count <- truediv min_cells_per_core actual_cells_per_core ;;
  (if PyNum.gt min_ratio_cpu_count 1
   then limit <- truediv num_cells min_ratio_cpu_count ;;
        print (advisory (PyNum.round limit))
   else ret tt) ;;;
  let max_cells_per_core := 100000 in
  let required_num_cores := num_cells / max_cells_per_core in
  checked_requirements "CPU Cores"
    (num_cpu_cores * num_processors) required_num_cores.

Definition estimate_bottleneck_cpu_l3_cache
  (num_cpu_cores num_cores cpu_l3_cache_capacity_mb : Q) : Py result :=
  let reference_mb_per_core := 2 in
  let required_cache_mb := num_cpu_cores * num_cores * reference_mb_per_core in
  checked_requirements "CPU L3 Cache (MB)"
    cpu_l3_cache_capacity_mb required_cache_mb.

Definition estimate_bottleneck_ram_channels
  (num_processors num_cores num_ram_channels : Q) : Py result :=
  let max_cores_per_ram_channel := 4 in
  let required_channels :=
    (num_cores * num_processors) / max_cores_per_ram_channel in
  checked_requirements "RAM Channels" num_ram_channels required_channels.

Definition estimate_bottleneck_ram_bandwidth
  (num_processors num_cpu_cores ram_speed_mts num_ram_channels : Q)
  : Py result :=
  let required_bandwidth_per_core_gbs := 2 in
  let bytes_per_transfer := 8 in
  let theoretical_bandwidth_gbs :=
    ram_speed_mts * 1000000 * bytes_per_transfer * num_ram_channels
      / 1000000000 in
  let bandwidth_efficiency := 7 # 10 in
  let actual_bandwidth_gbs :=
    theoretical_bandwidth_gbs * bandwidth_efficiency in
  let required_bandwidth_gbs :=
    num_processors * num_cpu_cores * required_bandwidth_per_core_gbs in
  checked_requirements "RAM Bandwidth (GB/s)"
    actual_bandwidth_gbs required_bandwidth_gbs.

Definition functions
  (num_cells ram_capacity_gb num_ram_channels ram_speed_mts num_processors
     num_cpu_cores cpu_speed_ghz cpu_l3_cache_capacity_mb gpu_vram_gb : Q)
  : Py (list result) :=
  r1 <- estimate_bottleneck_ram_capacity num_cells ram_capacity_gb ;;
  r2 <- estimate_bottleneck_ram_channels
          num_processors num_cpu_cores num_ram_channels ;;
  r3 <- estimate_bottleneck_ram_bandwidth
          num_processors num_cpu_cores ram_speed_mts num_ram_channels ;;
  r4 <- estimate_bottleneck_cpu_count num_cells num_processors num_cpu_cores ;;
  r5 <- estimate_bottleneck_cpu_speed cpu_speed_ghz ;;
  r6 <- estimate_bottleneck_cpu_l3_cache
          num_processors num_cpu_cores cpu_l3_cache_capacity_mb ;;
  r7 <- estimate_gpu_vram_recommendations num_cells gpu_vram_gb ;;
  ret [r1; r2; r3; r4; r5; r6; r7].

Definition ranked
  (num_cells ram_capacity_gb num_ram_channels ram_speed_mts num_processors
     num_cpu_cores cpu_speed_ghz cpu_l3_cache_capacity_mb gpu_vram_gb : Q)
  : Py (list result) :=
  fs <- functions num_cells ram_capacity_gb num_ram_channels ram_speed_mts
          num_processors num_cpu_cores cpu_speed_ghz
          cpu_l3_cache_capacity_mb gpu_vram_gb ;;
  ret (sorted ratio fs).

Definition estimate_cfd_requirements
  (num_cells ram_capacity_gb num_ram_channels ram_speed_mts num_processors
     num_cpu_cores cpu_speed_ghz cpu_l3_cache_capacity_mb gpu_vram_gb : Q)
  : Py unit :=
  fs <- ranked num_cells ram_capacity_gb num_ram_channels ram_speed_mts
          num_processors num_cpu_cores cpu_speed_ghz
          cpu_l3_cache_capacity_mb gpu_vram_gb ;;
  for_each fs (fun r => print (row r)).

Definition initial_world : World := mkWorld module_namespace [].

(** The script run as [__main__]; [NUM_CELLS] is an integer constant. *)
Definition main : Py unit :=
  print ("Checking the various possible hardware bottlenecks for a simulation with "
           ++ PyStr.format_comma_d (PyNum.int NUM_CELLS) ++ " cells")%string ;;;
  estimate_cfd_requirements NUM_CELLS RAM_CAPACITY_GB NUM_RAM_CHANNELS
    RAM_SPEED_MTS NUM_PROCESSORS NUM_CPU_CORES_PER_PROCESSOR CPU_SPEED_GHZ
    L3_CACHE_CAPACITY_MB_PER_PROCESSOR GPU_VRAM_GB.

End ofhc.

(** ** The storage advisory

    [estimate_storage_requirements] has the same text in both scripts.  Its
    f-string shows two floats with [str]; the shortest decimal text of a
    binary float is not a function of the exact value, so it is a parameter
    of the embedding. *)
Section Storage.
Variable float_str : Q -> string.

Definition estimate_storage_requirements
  (num_cells write_speed_gbs actual_storage_capacity_gb : Q) : Py unit :=
  let space_requirements_gb := num_cells / 1000000 in
  write_time_requirements_s <- truediv space_requirements_gb write_speed_gbs ;;
  print ("Each time step will use approximately "
           ++ float_str write_time_requirements_s
           ++ " seconds to write and "
           ++ float_str space_requirements_gb
           ++ " gigabytes to save")%string.
End Storage.

(** ** Observations on a run *)

(** The value a computation returns from a given world, if it returns. *)
Definition value_of {A} (m : Py A) (w : World) : option A :=
  match fst (m w) with
  | Returned a => Some a
  | Raised _ => None
  end.

(** The lines a computation adds to standard output. *)
Definition printed {A} (m : Py A) (w : World) : list string :=
  skipn (length (stdout w)) (stdout (snd (m w))).

Definition empty_world : World := mkWorld [] [].

(** What [checked_requirements] builds from a ratio it has computed. *)
Definition scored (title : string) (numerator denominator : Q) : result :=
  let r := numerator / denominator in
  mkResult r (PyStr.of_Z (PyNum.round (r * 100)) ++ " %")%string title
    (fmt numerator) (fmt denominator)
    (if PyNum.lt r 1 then fail_mark else pass_mark).

(** ** Vocabulary of the ranking properties *)

(** [a] may stand before [b] in an ascending ranking. *)
Definition ratio_le : result -> result -> Prop := key_le ratio.

(** The results of a sequence whose ratio has the value [k], in the order of
    the sequence. *)
Definition with_ratio (k : Q) (l : list result) : list result :=
  filter (fun r => Qeq_bool (ratio r) k) l.

(** ** Vocabulary of the properties of runs *)

(** The world after [lines] have been printed. *)
Definition emit (w : World) (lines : list string) : World :=
  mkWorld (module_names w) (stdout w ++ lines).

(** A computation is stateless when one outcome and one list of printed
    lines describe it from every world: it reads nothing of the world, it
    leaves the module namespace alone and it only appends to the output. *)
Definition stateless {A} (m : Py A) : Prop :=
  exists (v : outcome A) (lines : list string),
    forall w, m w = (v, emit w lines).

(** The lines [estimate_bottleneck_cpu_count] prints for a cell count and a
    total core count. *)
Definition cap_advisory (num_cells total_cores : Q) : list string :=
  let min_ratio_cpu_count := 50000 / (num_cells / total_cores) in
  if PyNum.gt min_ratio_cpu_count 1
  then [advisory (PyNum.round (num_cells / min_ratio_cpu_count))]
  else [].

(** The seven results of a run of [hardware_checker.py] in which no division
    raises, in the order of the list [functions]. *)
Definition hardware_checker_results
  (num_cells ram_capacity_gb num_ram_channels ram_speed_mts num_cpu_cores
     cpu_speed_ghz cpu_l3_cache_capacity_mb gpu_vram_gb : Q) : list result :=
  [ scored "RAM Capacity (GB)" ram_capacity_gb (num_cells / 1000000 * 2);
    scored "RAM Channels" 4 (num_cpu_cores / num_ram_channels);
    scored "RAM Bandwidth (GB/s)"
      (ram_speed_mts * 1000000 * 8 * num_ram_channels / 1000000000 * (7 # 10))
      (num_cpu_cores * 2);
    scored "CPU Cores" num_cpu_cores (num_cells / 100000);
    scored "CPU Clock-Speed (GHZ)" cpu_speed_ghz 3;
    scored "CPU L3 Cache (MB)" cpu_l3_cache_capacity_mb (num_cpu_cores * 2);
    scored "Virtual RAM (GB)" gpu_vram_gb (num_cells / 1000000 * (1 / 12)) ].

(** The same for [ofhc.py]. *)
Definition ofhc_results
  (num_cells ram_capacity_gb num_ram_channels ram_speed_mts num_processors
     num_cpu_cores cpu_speed_ghz cpu_l3_cache_capacity_mb gpu_vram_gb : Q)
  : list result :=
  [ scored "RAM Capacity (GB)" ram_capacity_gb (num_cells / 1000000 * 2);
    scored "RAM Channels" num_ram_channels
      (num_cpu_cores * num_processors / 4);
    scored "RAM Bandwidth (GB/s)"
      (ram_speed_mts * 1000000 * 8 * num_ram_channels / 1000000000 * (7 # 10))
      (num_processors * num_cpu_cores * 2);
    scored "CPU Cores" (num_cpu_cores * num_processors) (num_cells / 100000);
    scored "CPU Clock-Speed (GHZ)" cpu_speed_ghz 3;
    scored "CPU L3 Cache (MB)" cpu_l3_cache_capacity_mb
      (num_processors * num_cpu_cores * 2);
    scored "Virtual RAM (GB)" gpu_vram_gb (num_cells / 1000000 * (1 / 12)) ].

(** ** Vocabulary for comparing the two scripts *)


(** ** The RAM-channel quotients in binary64

    The ratio each script computes in [estimate_bottleneck_ram_channels],
    on primitive floats, for non-zero divisors.  The arguments are the
    floats of the Python arguments; the conversion of an integer below 2^53
    is exact, and so is the integer product in [ofhc.py]. *)
Module binary64.



End binary64.

(** * Properties *)

(** ** The number and string primitives on examples *)

Example round_half_even_down : PyNum.round (5 # 2) = 2%Z.
Proof. reflexivity. Qed.

Example round_half_even_up : PyNum.round (7 # 2) = 4%Z.
Proof. reflexivity. Qed.

Example round_negative : PyNum.round (- (26 # 10)) = (-3)%Z.
Proof. reflexivity. Qed.

Example format_grouping :
  PyStr.format_comma_f (1234567 # 1) 0 = "1,234,567".
Proof. reflexivity. Qed.

Example format_two_decimals :
  PyStr.format_comma_f (-(5 # 6)) 2 = "-0.83".
Proof. reflexivity. Qed.

Example format_pads_fraction :
  PyStr.format_comma_f (201 # 100) 1 = "2.0".
Proof. reflexivity. Qed.

Example ljust_counts_code_points : PyStr.ljust pass_mark 5 = "[✓]  ".
Proof. reflexivity. Qed.

Example fmt_three_significant_digits :
  fmt (6048 # 100) = "60.5" /\ fmt 100 = "100" /\ fmt (5 # 6) = "0.83"
  /\ fmt 0 = "0" /\ fmt 20 = "20.0".
Proof. repeat split; reflexivity. Qed.

(** ** The two scripts on their own constants *)

Example hardware_checker_console :
  hardware_checker.main hardware_checker.initial_world
  = (Returned tt,
     emit hardware_checker.initial_world
       [ "Checking the various possible bottlenecks";
         "Virtual RAM (GB)       Actual: 0          Target: 0.83       0 %   [✗]  ";
         "CPU Cores              Actual: 20.0       Target: 100        20 %  [✗]  ";
         "CPU Clock-Speed (GHZ)  Actual: 2.00       Target: 3.00       67 %  [✗]  ";
         "RAM Channels           Actual: 4.00       Target: 5.00       80 %  [✗]  ";
         "RAM Bandwidth (GB/s)   Actual: 60.5       Target: 40.0       151 % [✓]  ";
         "CPU L3 Cache (MB)      Actual: 64.0       Target: 40.0       160 % [✓]  ";
         "RAM Capacity (GB)      Actual: 64.0       Target: 20.0       320 % [✓]  " ]).
Proof. reflexivity. Qed.

Example ofhc_console :
  ofhc.main ofhc.initial_world
  = (Returned tt,
     emit ofhc.initial_world
       [ "Checking the various possible hardware bottlenecks for a simulation with 10,000,000 cells";
         "Virtual RAM (GB)       Actual: 0          Target: 0.83       0 %   [✗]  ";
         "CPU Cores              Actual: 20.0       Target: 100        20 %  [✗]  ";
         "CPU L3 Cache (MB)      Actual: 25.0       Target: 40.0       62 %  [✗]  ";
         "CPU Clock-Speed (GHZ)  Actual: 2.20       Target: 3.00       73 %  [✗]  ";
         "RAM Channels           Actual: 4.00       Target: 5.00       80 %  [✗]  ";
         "RAM Bandwidth (GB/s)   Actual: 47.8       Target: 40.0       119 % [✓]  ";
         "RAM Capacity (GB)      Actual: 64.0       Target: 20.0       320 % [✓]  " ]).
Proof. reflexivity. Qed.

(** ** Comparisons *)

Lemma lt_true_iff (x y : Q) : PyNum.lt x y = true <-> x < y.
Proof.
  unfold PyNum.lt. rewrite negb_true_iff.
  split; intros H.
  - apply Qnot_le_lt. intros Hle. apply Qle_bool_iff in Hle. congruence.
  - destruct (Qle_bool y x) eqn:E; [|reflexivity].
    apply Qle_bool_iff in E. exfalso. exact (Qlt_not_le _ _ H E).
Qed.

Lemma lt_false_iff (x y : Q) : PyNum.lt x y = false <-> y <= x.
Proof.
  unfold PyNum.lt. rewrite negb_false_iff. apply Qle_bool_iff.
Qed.

Lemma is_zero_true_iff (x : Q) : PyNum.is_zero x = true <-> x == 0.
Proof. apply Qeq_bool_iff. Qed.

Lemma is_zero_false_iff (x : Q) : PyNum.is_zero x = false <-> ~ x == 0.
Proof.
  rewrite <- is_zero_true_iff. destruct (PyNum.is_zero x); split; congruence.
Qed.

Lemma marks_differ : pass_mark <> fail_mark.
Proof. discriminate. Qed.

(** ** Division *)

Lemma truediv_returns (a b : Q) (w : World) :
  ~ b == 0 -> truediv a b w = (Returned (a / b), w).
Proof.
  intros H. unfold truediv. apply is_zero_false_iff in H. now rewrite H.
Qed.

Lemma truediv_raises (a b : Q) (w : World) :
  b == 0 -> truediv a b w = (Raised ZeroDivisionError, w).
Proof.
  intros H. unfold truediv. apply is_zero_true_iff in H. now rewrite H.
Qed.

(** ** The ratio scorer *)

Lemma checked_requirements_returns (t : string) (n d : Q) (w : World) :
  ~ d == 0 -> checked_requirements t n d w = (Returned (scored t n d), w).
Proof.
  intros H. unfold checked_requirements, bind.
  now rewrite (truediv_returns _ _ _ H).
Qed.

Lemma checked_requirements_raises (t : string) (n d : Q) (w : World) :
  d == 0 -> checked_requirements t n d w = (Raised ZeroDivisionError, w).
Proof.
  intros H. unfold checked_requirements, bind.
  now rewrite (truediv_raises _ _ _ H).
Qed.

Lemma scored_mark_pass (t : string) (n d : Q) :
  mark (scored t n d) = pass_mark <-> 1 <= n / d.
Proof.
  cbn. destruct (PyNum.lt (n / d) 1) eqn:E.
  - apply lt_true_iff in E. split; intros H.
    + symmetry in H. now apply marks_differ in H.
    + exfalso. exact (Qlt_not_le _ _ E H).
  - apply lt_false_iff in E. tauto.
Qed.

Lemma scored_mark_fail (t : string) (n d : Q) :
  mark (scored t n d) = fail_mark <-> n / d < 1.
Proof.
  cbn. destruct (PyNum.lt (n / d) 1) eqn:E.
  - apply lt_true_iff in E. tauto.
  - apply lt_false_iff in E. split; intros H.
    + now apply marks_differ in H.
    + exfalso. exact (Qlt_not_le _ _ H E).
Qed.

(** C1. For every actual value and every non-zero required value,
    [checked_requirements] returns, leaves the world as it was, and its
    result has ratio exactly actual / required; the mark is the pass mark
    if and only if the ratio is at least 1 and the fail mark if and only if
    the ratio is below 1.  The ratio and the mark are computed from the two
    numbers alone: the display strings of the result are further fields next
    to them. *)
Theorem checked_requirements_ratio_and_verdict
  (title : string) (actual required : Q) (w : World) :
  ~ required == 0 ->
  exists r,
    checked_requirements title actual required w = (Returned r, w)
    /\ ratio r = actual / required
    /\ (mark r = pass_mark <-> 1 <= ratio r)
    /\ (mark r = fail_mark <-> ratio r < 1)
    /\ actual_fmt r = fmt actual
    /\ target_fmt r = fmt required.
Proof.
  intros H. exists (scored title actual required). split.
  - now apply checked_requirements_returns.
  - split; [reflexivity|].
    split; [apply scored_mark_pass|].
    split; [apply scored_mark_fail|].
    split; reflexivity.
Qed.

Lemma checked_requirements_ratio_and_verdict_witness :
  ~ 100 == 0 /\
  exists r,
    checked_requirements "CPU Cores" 20 100 empty_world
      = (Returned r, empty_world)
    /\ ratio r = 20 / 100
    /\ (mark r = pass_mark <-> 1 <= ratio r)
    /\ (mark r = fail_mark <-> ratio r < 1)
    /\ actual_fmt r = fmt 20
    /\ target_fmt r = fmt 100.
Proof.
  assert (H : ~ 100 == 0) by (intros E; discriminate E).
  split; [exact H|].
  exact (checked_requirements_ratio_and_verdict "CPU Cores" 20 100 empty_world H).
Defined.

(** ** [sorted]: permutation, order and stability *)

Section SortedFacts.
Context {A : Type} (key : A -> Q).

Lemma insert_by_key_perm (x : A) (l : list A) :
  Permutation (x :: l) (insert_by_key key x l).
Proof.
  induction l as [|y l IH]; cbn.
  - apply Permutation_refl.
  - destruct (PyNum.lt (key y) (key x)).
    + eapply perm_trans; [apply perm_swap|]. now apply perm_skip.
    + apply Permutation_refl.
Qed.

Lemma sorted_perm (l : list A) : Permutation l (sorted key l).
Proof.
  induction l as [|x l IH]; cbn.
  - constructor.
  - eapply perm_trans; [apply perm_skip, IH|]. apply insert_by_key_perm.
Qed.

Lemma insert_by_key_Forall (P : A -> Prop) (x : A) (l : list A) :
  P x -> Forall P l -> Forall P (insert_by_key key x l).
Proof.
  intros Hx Hl.
  eapply Permutation_Forall; [apply insert_by_key_perm|].
  now constructor.
Qed.

Lemma insert_by_key_ascending (x : A) (l : list A) :
  StronglySorted (key_le key) l -> StronglySorted (key_le key) (insert_by_key key x l).
Proof.
  induction 1 as [|y l Hs IH Hy]; cbn.
  - repeat constructor.
  - destruct (PyNum.lt (key y) (key x)) eqn:E.
    + constructor; [exact IH|].
      apply insert_by_key_Forall; [|exact Hy].
      apply lt_true_iff in E. now apply Qlt_le_weak.
    + apply lt_false_iff in E.
      constructor; [now constructor|].
      constructor; [exact E|].
      eapply Forall_impl; [|exact Hy].
      intros z Hz. unfold key_le in *. now apply Qle_trans with (key y).
Qed.

Lemma sorted_ascending (l : list A) : StronglySorted (key_le key) (sorted key l).
Proof.
  induction l as [|x l IH]; cbn.
  - constructor.
  - now apply insert_by_key_ascending.
Qed.

(** Inserting [x] leaves the elements of every key class in their order,
    with [x] in front of its own class. *)
Lemma insert_by_key_class (k : Q) (x : A) (l : list A) :
  filter (fun a => Qeq_bool (key a) k) (insert_by_key key x l)
  = filter (fun a => Qeq_bool (key a) k) (x :: l).
Proof.
  induction l as [|y l IH]; [reflexivity|].
  cbn [insert_by_key].
  destruct (PyNum.lt (key y) (key x)) eqn:E; [|reflexivity].
  cbn [filter] in *. rewrite IH.
  destruct (Qeq_bool (key x) k) eqn:Ex; [|reflexivity].
  destruct (Qeq_bool (key y) k) eqn:Ey; [|reflexivity].
  apply Qeq_bool_iff in Ex, Ey. apply lt_true_iff in E.
  rewrite Ex, Ey in E. now apply Qlt_irrefl in E.
Qed.

Lemma sorted_stable (k : Q) (l : list A) :
  filter (fun a => Qeq_bool (key a) k) (sorted key l)
  = filter (fun a => Qeq_bool (key a) k) l.
Proof.
  induction l as [|x l IH]; [reflexivity|].
  cbn [sorted fold_right]. rewrite insert_by_key_class.
  cbn [filter]. fold (sorted key l). now rewrite IH.
Qed.
End SortedFacts.


(** ** Worlds and stateless computations *)

Lemma emit_nil (w : World) : emit w [] = w.
Proof. destruct w. unfold emit. cbn. now rewrite app_nil_r. Qed.

Lemma emit_emit (w : World) (a b : list string) :
  emit (emit w a) b = emit w (a ++ b).
Proof. unfold emit. cbn. now rewrite app_assoc. Qed.

Lemma print_emit (line : string) (w : World) :
  print line w = (Returned tt, emit w [line]).
Proof. reflexivity. Qed.

Lemma stateless_ret {A} (a : A) : stateless (ret a).
Proof. exists (Returned a), []. intros w. now rewrite emit_nil. Qed.

Lemma stateless_raise {A} (e : exn) : stateless (@raise A e).
Proof. exists (Raised e), []. intros w. now rewrite emit_nil. Qed.

Lemma stateless_print (line : string) : stateless (print line).
Proof. exists (Returned tt), [line]. intros w. apply print_emit. Qed.

Lemma stateless_truediv (a b : Q) : stateless (truediv a b).
Proof.
  unfold truediv. destruct (PyNum.is_zero b).
  - apply stateless_raise.
  - apply stateless_ret.
Qed.

Lemma stateless_bind {A B} (m : Py A) (k : A -> Py B) :
  stateless m -> (forall a, stateless (k a)) -> stateless (bind m k).
Proof.
  intros [v [out Hm]] Hk. destruct v as [a|e].
  - destruct (Hk a) as [v' [out' Hka]].
    exists v', (out ++ out')%list. intros w. unfold bind.
    now rewrite Hm, Hka, emit_emit.
  - exists (Raised e), out. intros w. unfold bind. now rewrite Hm.
Qed.

Lemma stateless_for_each {A} (body : A -> Py unit) (l : list A) :
  (forall a, stateless (body a)) -> stateless (for_each l body).
Proof.
  intros Hb. induction l as [|x l IH]; cbn.
  - apply stateless_ret.
  - apply stateless_bind; [apply Hb|]. intros _. exact IH.
Qed.

Lemma stateless_if {A} (b : bool) (m1 m2 : Py A) :
  stateless m1 -> stateless m2 -> stateless (if b then m1 else m2).
Proof. now destruct b. Qed.

Create HintDb stateless.

#[export] Hint Resolve stateless_ret stateless_raise stateless_print
  stateless_truediv stateless_for_each stateless_if : stateless.

(** Decomposes a computation along its binds. *)
Ltac stateless_steps :=
  repeat first
    [ apply stateless_bind; [|intros ?]
    | apply stateless_if
    | solve [auto with stateless] ].

Lemma stateless_checked_requirements (t : string) (n d : Q) :
  stateless (checked_requirements t n d).
Proof. unfold checked_requirements. stateless_steps. Qed.

#[export] Hint Resolve stateless_checked_requirements : stateless.

Lemma for_each_print_rows (fs : list result) (w : World) :
  for_each fs (fun r => print (row r)) w = (Returned tt, emit w (map row fs)).
Proof.
  revert w. induction fs as [|r fs IH]; intros w; cbn [for_each map].
  - unfold ret. now rewrite emit_nil.
  - unfold bind. rewrite print_emit, IH, emit_emit. reflexivity.
Qed.

(** ** The ranking step inside [estimate_cfd_requirements] *)

(** In both scripts the ranked list is [sorted] applied to the list the
    estimators have produced, and the rows are printed in ranked order. *)
Lemma hardware_checker_ranked_sorts
  (num_cells ram_capacity_gb num_ram_channels ram_speed_mts num_cpu_cores
     cpu_speed_ghz cpu_l3_cache_capacity_mb gpu_vram_gb : Q) (w : World) :
  value_of
    (hardware_checker.ranked num_cells ram_capacity_gb num_ram_channels
       ram_speed_mts num_cpu_cores cpu_speed_ghz cpu_l3_cache_capacity_mb
       gpu_vram_gb) w
  = option_map (sorted ratio)
      (value_of
         (hardware_checker.functions num_cells ram_capacity_gb
            num_ram_channels ram_speed_mts num_cpu_cores cpu_speed_ghz
            cpu_l3_cache_capacity_mb gpu_vram_gb) w).
Proof.
  unfold hardware_checker.ranked, bind, value_of.
  destruct (hardware_checker.functions _ _ _ _ _ _ _ _ w) as [[fs|e] w'];
    reflexivity.
Qed.

Lemma ofhc_ranked_sorts
  (num_cells ram_capacity_gb num_ram_channels ram_speed_mts num_processors
     num_cpu_cores cpu_speed_ghz cpu_l3_cache_capacity_mb gpu_vram_gb : Q)
  (w : World) :
  value_of
    (ofhc.ranked num_cells ram_capacity_gb num_ram_channels ram_speed_mts
       num_processors num_cpu_cores cpu_speed_ghz cpu_l3_cache_capacity_mb
       gpu_vram_gb) w
  = option_map (sorted ratio)
      (value_of
         (ofhc.functions num_cells ram_capacity_gb num_ram_channels
            ram_speed_mts num_processors num_cpu_cores cpu_speed_ghz
            cpu_l3_cache_capacity_mb gpu_vram_gb) w).
Proof.
  unfold ofhc.ranked, bind, value_of.
  destruct (ofhc.functions _ _ _ _ _ _ _ _ _ w) as [[fs|e] w'];
    reflexivity.
Qed.

Lemma hardware_checker_rows_in_ranked_order
  (num_cells ram_capacity_gb num_ram_channels ram_speed_mts num_cpu_cores
     cpu_speed_ghz cpu_l3_cache_capacity_mb gpu_vram_gb : Q)
  (w w' : World) (fs : list result) :
  hardware_checker.ranked num_cells ram_capacity_gb num_ram_channels
    ram_speed_mts num_cpu_cores cpu_speed_ghz cpu_l3_cache_capacity_mb
    gpu_vram_gb w = (Returned fs, w') ->
  hardware_checker.estimate_cfd_requirements num_cells ram_capacity_gb
    num_ram_channels ram_speed_mts num_cpu_cores cpu_speed_ghz
    cpu_l3_cache_capacity_mb gpu_vram_gb w
  = (Returned tt, emit w' (map row fs)).
Proof.
  intros H. unfold hardware_checker.estimate_cfd_requirements, bind.
  rewrite H. apply for_each_print_rows.
Qed.

Lemma ofhc_rows_in_ranked_order
  (num_cells ram_capacity_gb num_ram_channels ram_speed_mts num_processors
     num_cpu_cores cpu_speed_ghz cpu_l3_cache_capacity_mb gpu_vram_gb : Q)
  (w w' : World) (fs : list result) :
  ofhc.ranked num_cells ram_capacity_gb num_ram_channels ram_speed_mts
    num_processors num_cpu_cores cpu_speed_ghz cpu_l3_cache_capacity_mb
    gpu_vram_gb w = (Returned fs, w') ->
  ofhc.estimate_cfd_requirements num_cells ram_capacity_gb num_ram_channels
    ram_speed_mts num_processors num_cpu_cores cpu_speed_ghz
    cpu_l3_cache_capacity_mb gpu_vram_gb w
  = (Returned tt, emit w' (map row fs)).
Proof.
  intros H. unfold ofhc.estimate_cfd_requirements, bind.
  rewrite H. apply for_each_print_rows.
Qed.

(** C2. The ranking step of both scripts.  For every sequence of estimator
    results, [sorted(functions, key=lambda f: f[0])] is a permutation of the
    sequence, its ratios never decrease along the output, and results with
    equal ratios keep the order they had in the input.  And in
    [hardware_checker.py] as in [ofhc.py], whenever the estimators have
    produced the list [functions], the ranked list of
    [estimate_cfd_requirements] is such an ordering of that very list: a
    permutation of it, ascending by ratio, stable; and the rows are printed
    in the order of the ranked list. *)
Theorem ranking_sorted_permutation_stable
  (num_cells ram_capacity_gb num_ram_channels ram_speed_mts num_processors
     num_cpu_cores cpu_speed_ghz cpu_l3_cache_capacity_mb gpu_vram_gb : Q)
  (w : World) :
  (forall results : list result,
     Permutation results (sorted ratio results)
     /\ StronglySorted ratio_le (sorted ratio results)
     /\ forall k, with_ratio k (sorted ratio results) = with_ratio k results)
  /\ (forall (fs : list result) (w' : World),
        hardware_checker.functions num_cells ram_capacity_gb
          num_ram_channels ram_speed_mts num_cpu_cores cpu_speed_ghz
          cpu_l3_cache_capacity_mb gpu_vram_gb w = (Returned fs, w') ->
        exists ranked,
          hardware_checker.ranked num_cells ram_capacity_gb
            num_ram_channels ram_speed_mts num_cpu_cores cpu_speed_ghz
            cpu_l3_cache_capacity_mb gpu_vram_gb w = (Returned ranked, w')
          /\ hardware_checker.estimate_cfd_requirements num_cells
               ram_capacity_gb num_ram_channels ram_speed_mts num_cpu_cores
               cpu_speed_ghz cpu_l3_cache_capacity_mb gpu_vram_gb w
             = (Returned tt, emit w' (map row ranked))
          /\ Permutation fs ranked
          /\ StronglySorted ratio_le ranked
          /\ forall k, with_ratio k ranked = with_ratio k fs)
  /\ (forall (fs : list result) (w' : World),
        ofhc.functions num_cells ram_capacity_gb num_ram_channels
          ram_speed_mts num_processors num_cpu_cores cpu_speed_ghz
          cpu_l3_cache_capacity_mb gpu_vram_gb w = (Returned fs, w') ->
        exists ranked,
          ofhc.ranked num_cells ram_capacity_gb num_ram_channels
            ram_speed_mts num_processors num_cpu_cores cpu_speed_ghz
            cpu_l3_cache_capacity_mb gpu_vram_gb w = (Returned ranked, w')
          /\ ofhc.estimate_cfd_requirements num_cells ram_capacity_gb
               num_ram_channels ram_speed_mts num_processors num_cpu_cores
               cpu_speed_ghz cpu_l3_cache_capacity_mb gpu_vram_gb w
             = (Returned tt, emit w' (map row ranked))
          /\ Permutation fs ranked
          /\ StronglySorted ratio_le ranked
          /\ forall k, with_ratio k ranked = with_ratio k fs).
Proof.
  assert (Hsort : forall results : list result,
            Permutation results (sorted ratio results)
            /\ StronglySorted ratio_le (sorted ratio results)
            /\ forall k,
                 with_ratio k (sorted ratio results) = with_ratio k results).
  { intros results. split; [apply sorted_perm|].
    split; [apply sorted_ascending|].
    intros k. apply sorted_stable. }
  split; [exact Hsort|]. split.
  - intros fs w' H.
    assert (Hr : hardware_checker.ranked num_cells ram_capacity_gb
                   num_ram_channels ram_speed_mts num_cpu_cores
                   cpu_speed_ghz cpu_l3_cache_capacity_mb gpu_vram_gb w
                 = (Returned (sorted ratio fs), w')).
    { unfold hardware_checker.ranked, bind. now rewrite H. }
    exists (sorted ratio fs).
    split; [exact Hr|].
    split; [now apply hardware_checker_rows_in_ranked_order|].
    apply Hsort.
  - intros fs w' H.
    assert (Hr : ofhc.ranked num_cells ram_capacity_gb num_ram_channels
                   ram_speed_mts num_processors num_cpu_cores cpu_speed_ghz
                   cpu_l3_cache_capacity_mb gpu_vram_gb w
                 = (Returned (sorted ratio fs), w')).
    { unfold ofhc.ranked, bind. now rewrite H. }
    exists (sorted ratio fs).
    split; [exact Hr|].
    split; [now apply ofhc_rows_in_ranked_order|].
    apply Hsort.
Qed.

Lemma ranking_sorted_permutation_stable_witness :
  hardware_checker.functions 10000000 64 4 2700 20 2 64 0 empty_world
  = (Returned (hardware_checker_results 10000000 64 4 2700 20 2 64 0),
     empty_world)
  /\ ofhc.functions 10000000 64 4 2133 2 10 (22 # 10) 25 0 empty_world
     = (Returned (ofhc_results 10000000 64 4 2133 2 10 (22 # 10) 25 0),
        empty_world)
  /\ (exists ranked,
        hardware_checker.ranked 10000000 64 4 2700 20 2 64 0 empty_world
        = (Returned ranked, empty_world)
        /\ Permutation (hardware_checker_results 10000000 64 4 2700 20 2 64 0)
             ranked
        /\ StronglySorted ratio_le ranked)
  /\ (exists ranked,
        ofhc.ranked 10000000 64 4 2133 2 10 (22 # 10) 25 0 empty_world
        = (Returned ranked, empty_world)
        /\ Permutation
             (ofhc_results 10000000 64 4 2133 2 10 (22 # 10) 25 0) ranked
        /\ StronglySorted ratio_le ranked).
Proof.
  assert (H1 : hardware_checker.functions 10000000 64 4 2700 20 2 64 0
                 empty_world
               = (Returned
                    (hardware_checker_results 10000000 64 4 2700 20 2 64 0),
                  empty_world)) by reflexivity.
  assert (H2 : ofhc.functions 10000000 64 4 2133 2 10 (22 # 10) 25 0
                 empty_world
               = (Returned
                    (ofhc_results 10000000 64 4 2133 2 10 (22 # 10) 25 0),
                  empty_world)) by reflexivity.
  split; [exact H1|]. split; [exact H2|].
  split.
  - destruct (proj1 (proj2 (ranking_sorted_permutation_stable
                              10000000 64 4 2700 2 20 2 64 0 empty_world))
                _ _ H1) as (ranked & Hr & _ & Hp & Hs & _).
    exists ranked. repeat split; assumption.
  - destruct (proj2 (proj2 (ranking_sorted_permutation_stable
                              10000000 64 4 2133 2 10 (22 # 10) 25 0
                              empty_world))
                _ _ H2) as (ranked & Hr & _ & Hp & Hs & _).
    exists ranked. repeat split; assumption.
Defined.

(** ** Non-zero divisors *)

Lemma Qpos_nonzero (a : Q) : 0 < a -> ~ a == 0.
Proof. intros H E. rewrite E in H. now apply Qlt_irrefl in H. Qed.

Lemma Qmult_nonzero (a b : Q) : ~ a == 0 -> ~ b == 0 -> ~ a * b == 0.
Proof. intros Ha Hb E. apply Qmult_integral in E. tauto. Qed.

Lemma Qinv_nonzero (a : Q) : ~ a == 0 -> ~ / a == 0.
Proof.
  intros Ha E. apply Ha. rewrite <- (Qinv_involutive a), E. reflexivity.
Qed.

Lemma Qdiv_nonzero (a b : Q) : ~ a == 0 -> ~ b == 0 -> ~ a / b == 0.
Proof.
  intros Ha Hb. unfold Qdiv. apply Qmult_nonzero; [exact Ha|].
  now apply Qinv_nonzero.
Qed.

Lemma Qdiv_zero_l (a b : Q) : a == 0 -> a / b == 0.
Proof. intros E. rewrite E. unfold Qdiv. apply Qmult_0_l. Qed.

Lemma Qmult_zero_l (a b : Q) : a == 0 -> a * b == 0.
Proof. intros E. rewrite E. apply Qmult_0_l. Qed.

Lemma Qmult_zero_r (a b : Q) : b == 0 -> a * b == 0.
Proof. intros E. rewrite E. apply Qmult_0_r. Qed.

(** Closes [~ e == 0] for products and quotients of non-zero numbers. *)
Ltac nonzero :=
  repeat first
    [ assumption
    | solve [let H := fresh in intros H; discriminate H]
    | apply Qpos_nonzero; assumption
    | apply Qdiv_nonzero
    | apply Qmult_nonzero ].

(** ** The estimators on inputs whose divisions succeed *)

Lemma ram_capacity_returns (num_cells actual_ram_capacity_gb : Q) (w : World) :
  ~ num_cells == 0 ->
  estimate_bottleneck_ram_capacity num_cells actual_ram_capacity_gb w
  = (Returned (scored "RAM Capacity (GB)" actual_ram_capacity_gb
                 (num_cells / 1000000 * 2)), w).
Proof.
  intros H. unfold estimate_bottleneck_ram_capacity.
  apply checked_requirements_returns. nonzero.
Qed.

Lemma gpu_vram_returns (num_cells gpu_vram_gb : Q) (w : World) :
  ~ num_cells == 0 ->
  estimate_gpu_vram_recommendations num_cells gpu_vram_gb w
  = (Returned (scored "Virtual RAM (GB)" gpu_vram_gb
                 (num_cells / 1000000 * (1 / 12))), w).
Proof.
  intros H. unfold estimate_gpu_vram_recommendations.
  apply checked_requirements_returns. nonzero.
Qed.

Lemma cpu_speed_returns (cpu_speed_ghz : Q) (w : World) :
  estimate_bottleneck_cpu_speed cpu_speed_ghz w
  = (Returned (scored "CPU Clock-Speed (GHZ)" cpu_speed_ghz 3), w).
Proof.
  unfold estimate_bottleneck_cpu_speed.
  apply checked_requirements_returns. nonzero.
Qed.

Module hardware_checker_facts.
Import hardware_checker.

Lemma ram_channels_returns (num_cores num_ram_channels : Q) (w : World) :
  ~ num_cores == 0 -> ~ num_ram_channels == 0 ->
  estimate_bottleneck_ram_channels num_cores num_ram_channels w
  = (Returned (scored "RAM Channels" 4 (num_cores / num_ram_channels)), w).
Proof.
  intros Hc Hr. unfold estimate_bottleneck_ram_channels, bind.
  rewrite (truediv_returns _ _ _ Hr).
  apply checked_requirements_returns. nonzero.
Qed.

Lemma ram_bandwidth_returns
  (num_cpu_cores ram_speed_mts num_ram_channels : Q) (w : World) :
  ~ num_cpu_cores == 0 ->
  estimate_bottleneck_ram_bandwidth num_cpu_cores ram_speed_mts
    num_ram_channels w
  = (Returned
       (scored "RAM Bandwidth (GB/s)"
          (ram_speed_mts * 1000000 * 8 * num_ram_channels / 1000000000
             * (7 # 10))
          (num_cpu_cores * 2)), w).
Proof.
  intros H. unfold estimate_bottleneck_ram_bandwidth.
  apply checked_requirements_returns. nonzero.
Qed.

Lemma cpu_l3_cache_returns (num_cores cpu_l3_cache_capacity_mb : Q) (w : World) :
  ~ num_cores == 0 ->
  estimate_bottleneck_cpu_l3_cache num_cores cpu_l3_cache_capacity_mb w
  = (Returned (scored "CPU L3 Cache (MB)" cpu_l3_cache_capacity_mb
                 (num_cores * 2)), w).
Proof.
  intros H. unfold estimate_bottleneck_cpu_l3_cache.
  apply checked_requirements_returns. nonzero.
Qed.

Lemma cpu_count_returns (num_cells num_cpu_cores : Q) (w : World) :
  ~ num_cells == 0 -> ~ num_cpu_cores == 0 ->
  estimate_bottleneck_cpu_count num_cells num_cpu_cores w
  = (Returned (scored "CPU Cores" num_cpu_cores (num_cells / 100000)),
     emit w (cap_advisory num_cells num_cpu_cores)).
Proof.
  intros Hn Hc. unfold estimate_bottleneck_cpu_count, cap_advisory, bind.
  rewrite (truediv_returns _ _ _ Hc).
  rewrite truediv_returns by nonzero.
  destruct (PyNum.gt (50000 / (num_cells / num_cpu_cores)) 1) eqn:E.
  - rewrite truediv_returns by nonzero.
    rewrite print_emit. apply checked_requirements_returns. nonzero.
  - unfold ret. rewrite emit_nil. apply checked_requirements_returns. nonzero.
Qed.

Lemma functions_returns
  (num_cells ram_capacity_gb num_ram_channels ram_speed_mts num_cpu_cores
     cpu_speed_ghz cpu_l3_cache_capacity_mb gpu_vram_gb : Q) (w : World) :
  ~ num_cells == 0 -> ~ num_cpu_cores == 0 -> ~ num_ram_channels == 0 ->
  functions num_cells ram_capacity_gb num_ram_channels ram_speed_mts
    num_cpu_cores cpu_speed_ghz cpu_l3_cache_capacity_mb gpu_vram_gb w
  = (Returned
       (hardware_checker_results num_cells ram_capacity_gb num_ram_channels
          ram_speed_mts num_cpu_cores cpu_speed_ghz cpu_l3_cache_capacity_mb
          gpu_vram_gb),
     emit w (cap_advisory num_cells num_cpu_cores)).
Proof.
  intros Hn Hc Hr. unfold functions, bind.
  rewrite (ram_capacity_returns _ _ _ Hn).
  rewrite (ram_channels_returns _ _ _ Hc Hr).
  rewrite (ram_bandwidth_returns _ _ _ _ Hc).
  rewrite (cpu_count_returns _ _ _ Hn Hc).
  rewrite cpu_speed_returns.
  rewrite (cpu_l3_cache_returns _ _ _ Hc).
  rewrite (gpu_vram_returns _ _ _ Hn).
  reflexivity.
Qed.

Lemma ranked_returns
  (num_cells ram_capacity_gb num_ram_channels ram_speed_mts num_cpu_cores
     cpu_speed_ghz cpu_l3_cache_capacity_mb gpu_vram_gb : Q) (w : World) :
  ~ num_cells == 0 -> ~ num_cpu_cores == 0 -> ~ num_ram_channels == 0 ->
  ranked num_cells ram_capacity_gb num_ram_channels ram_speed_mts
    num_cpu_cores cpu_speed_ghz cpu_l3_cache_capacity_mb gpu_vram_gb w
  = (Returned
       (sorted ratio
          (hardware_checker_results num_cells ram_capacity_gb
             num_ram_channels ram_speed_mts num_cpu_cores cpu_speed_ghz
             cpu_l3_cache_capacity_mb gpu_vram_gb)),
     emit w (cap_advisory num_cells num_cpu_cores)).
Proof.
  intros Hn Hc Hr. unfold ranked, bind.
  now rewrite (functions_returns _ _ _ _ _ _ _ _ _ Hn Hc Hr).
Qed.

Lemma estimate_cfd_requirements_returns
  (num_cells ram_capacity_gb num_ram_channels ram_speed_mts num_cpu_cores
     cpu_speed_ghz cpu_l3_cache_capacity_mb gpu_vram_gb : Q) (w : World) :
  ~ num_cells == 0 -> ~ num_cpu_cores == 0 -> ~ num_ram_channels == 0 ->
  estimate_cfd_requirements num_cells ram_capacity_gb num_ram_channels
    ram_speed_mts num_cpu_cores cpu_speed_ghz cpu_l3_cache_capacity_mb
    gpu_vram_gb w
  = (Returned tt,
     emit w
       (cap_advisory num_cells num_cpu_cores
        ++ map row
             (sorted ratio
                (hardware_checker_results num_cells ram_capacity_gb
                   num_ram_channels ram_speed_mts num_cpu_cores cpu_speed_ghz
                   cpu_l3_cache_capacity_mb gpu_vram_gb)))%list).
Proof.
  intros Hn Hc Hr. unfold estimate_cfd_requirements, bind.
  rewrite (ranked_returns _ _ _ _ _ _ _ _ _ Hn Hc Hr).
  now rewrite for_each_print_rows, emit_emit.
Qed.

End hardware_checker_facts.

Module ofhc_facts.
Import ofhc.

Lemma ram_channels_returns_factored
  (num_processors num_cores num_ram_channels : Q) (w : World) :
  ~ num_processors == 0 -> ~ num_cores == 0 ->
  estimate_bottleneck_ram_channels num_processors num_cores num_ram_channels w
  = (Returned (scored "RAM Channels" num_ram_channels
                 (num_cores * num_processors / 4)), w).
Proof.
  intros Hp Hc. unfold estimate_bottleneck_ram_channels.
  apply checked_requirements_returns. nonzero.
Qed.

Lemma ram_bandwidth_returns_factored
  (num_processors num_cpu_cores ram_speed_mts num_ram_channels : Q)
  (w : World) :
  ~ num_processors == 0 -> ~ num_cpu_cores == 0 ->
  estimate_bottleneck_ram_bandwidth num_processors num_cpu_cores
    ram_speed_mts num_ram_channels w
  = (Returned
       (scored "RAM Bandwidth (GB/s)"
          (ram_speed_mts * 1000000 * 8 * num_ram_channels / 1000000000
             * (7 # 10))
          (num_processors * num_cpu_cores * 2)), w).
Proof.
  intros Hp Hc. unfold estimate_bottleneck_ram_bandwidth.
  apply checked_requirements_returns. nonzero.
Qed.

Lemma cpu_l3_cache_returns_factored
  (num_cpu_cores num_cores cpu_l3_cache_capacity_mb : Q) (w : World) :
  ~ num_cpu_cores == 0 -> ~ num_cores == 0 ->
  estimate_bottleneck_cpu_l3_cache num_cpu_cores num_cores
    cpu_l3_cache_capacity_mb w
  = (Returned (scored "CPU L3 Cache (MB)" cpu_l3_cache_capacity_mb
                 (num_cpu_cores * num_cores * 2)), w).
Proof.
  intros Hp Hc. unfold estimate_bottleneck_cpu_l3_cache.
  apply checked_requirements_returns. nonzero.
Qed.

Lemma cpu_count_returns_factored (num_cells num_processors num_cpu_cores : Q) (w : World) :
  ~ num_cells == 0 -> ~ num_processors == 0 -> ~ num_cpu_cores == 0 ->
  estimate_bottleneck_cpu_count num_cells num_processors num_cpu_cores w
  = (Returned (scored "CPU Cores" (num_cpu_cores * num_processors)
                 (num_cells / 100000)),
     emit w (cap_advisory num_cells (num_cpu_cores * num_processors))).
Proof.
  intros Hn Hp Hc. unfold estimate_bottleneck_cpu_count, cap_advisory, bind.
  rewrite truediv_returns by nonzero.
  rewrite truediv_returns by nonzero.
  destruct (PyNum.gt (50000 / (num_cells / (num_cpu_cores * num_processors))) 1).
  - rewrite truediv_returns by nonzero.
    rewrite print_emit. apply checked_requirements_returns. nonzero.
  - unfold ret. rewrite emit_nil. apply checked_requirements_returns. nonzero.
Qed.

Lemma functions_returns_factored
  (num_cells ram_capacity_gb num_ram_channels ram_speed_mts num_processors
     num_cpu_cores cpu_speed_ghz cpu_l3_cache_capacity_mb gpu_vram_gb : Q)
  (w : World) :
  ~ num_cells == 0 -> ~ num_processors == 0 -> ~ num_cpu_cores == 0 ->
  functions num_cells ram_capacity_gb num_ram_channels ram_speed_mts
    num_processors num_cpu_cores cpu_speed_ghz cpu_l3_cache_capacity_mb
    gpu_vram_gb w
  = (Returned
       (ofhc_results num_cells ram_capacity_gb num_ram_channels ram_speed_mts
          num_processors num_cpu_cores cpu_speed_ghz cpu_l3_cache_capacity_mb
          gpu_vram_gb),
     emit w (cap_advisory num_cells (num_cpu_cores * num_processors))).
Proof.
  intros Hn Hp Hc. unfold functions, bind.
  rewrite (ram_capacity_returns _ _ _ Hn).
  rewrite (ram_channels_returns_factored _ _ _ _ Hp Hc).
  rewrite (ram_bandwidth_returns_factored _ _ _ _ _ Hp Hc).
  rewrite (cpu_count_returns_factored _ _ _ _ Hn Hp Hc).
  rewrite cpu_speed_returns.
  rewrite (cpu_l3_cache_returns_factored _ _ _ _ Hp Hc).
  rewrite (gpu_vram_returns _ _ _ Hn).
  reflexivity.
Qed.

End ofhc_facts.

(** ** Every function of the two scripts is stateless *)

Lemma stateless_shared_estimators (a b : Q) :
  stateless (estimate_bottleneck_cpu_speed a)
  /\ stateless (estimate_bottleneck_ram_capacity a b)
  /\ stateless (estimate_gpu_vram_recommendations a b).
Proof.
  unfold estimate_bottleneck_cpu_speed, estimate_bottleneck_ram_capacity,
    estimate_gpu_vram_recommendations.
  repeat split; auto with stateless.
Qed.

Lemma stateless_hardware_checker_functions
  (num_cells ram_capacity_gb num_ram_channels ram_speed_mts num_cpu_cores
     cpu_speed_ghz cpu_l3_cache_capacity_mb gpu_vram_gb : Q) :
  stateless
    (hardware_checker.functions num_cells ram_capacity_gb num_ram_channels
       ram_speed_mts num_cpu_cores cpu_speed_ghz cpu_l3_cache_capacity_mb
       gpu_vram_gb).
Proof.
  unfold hardware_checker.functions,
    hardware_checker.estimate_bottleneck_ram_channels,
    hardware_checker.estimate_bottleneck_ram_bandwidth,
    hardware_checker.estimate_bottleneck_cpu_count,
    hardware_checker.estimate_bottleneck_cpu_l3_cache,
    estimate_bottleneck_cpu_speed, estimate_bottleneck_ram_capacity,
    estimate_gpu_vram_recommendations.
  stateless_steps.
Qed.

Lemma stateless_ofhc_functions
  (num_cells ram_capacity_gb num_ram_channels ram_speed_mts num_processors
     num_cpu_cores cpu_speed_ghz cpu_l3_cache_capacity_mb gpu_vram_gb : Q) :
  stateless
    (ofhc.functions num_cells ram_capacity_gb num_ram_channels ram_speed_mts
       num_processors num_cpu_cores cpu_speed_ghz cpu_l3_cache_capacity_mb
       gpu_vram_gb).
Proof.
  unfold ofhc.functions, ofhc.estimate_bottleneck_ram_channels,
    ofhc.estimate_bottleneck_ram_bandwidth,
    ofhc.estimate_bottleneck_cpu_count,
    ofhc.estimate_bottleneck_cpu_l3_cache,
    estimate_bottleneck_cpu_speed, estimate_bottleneck_ram_capacity,
    estimate_gpu_vram_recommendations.
  stateless_steps.
Qed.

(** C10. The full evaluation is deterministic and stateless, in both
    scripts: for every profile there are one outcome of the ranking and one
    list of printed lines such that, from whatever world the run starts (in
    particular from the world a previous run has left), the ranked results
    are that outcome, the run appends exactly those lines to the output and
    the module namespace is as before.  The same holds for the whole of
    [estimate_cfd_requirements]. *)
Theorem evaluation_deterministic_and_stateless
  (num_cells ram_capacity_gb num_ram_channels ram_speed_mts num_processors
     num_cpu_cores cpu_speed_ghz cpu_l3_cache_capacity_mb gpu_vram_gb : Q) :
  stateless
    (hardware_checker.ranked num_cells ram_capacity_gb num_ram_channels
       ram_speed_mts num_cpu_cores cpu_speed_ghz cpu_l3_cache_capacity_mb
       gpu_vram_gb)
  /\ stateless
       (hardware_checker.estimate_cfd_requirements num_cells ram_capacity_gb
          num_ram_channels ram_speed_mts num_cpu_cores cpu_speed_ghz
          cpu_l3_cache_capacity_mb gpu_vram_gb)
  /\ stateless
       (ofhc.ranked num_cells ram_capacity_gb num_ram_channels ram_speed_mts
          num_processors num_cpu_cores cpu_speed_ghz cpu_l3_cache_capacity_mb
          gpu_vram_gb)
  /\ stateless
       (ofhc.estimate_cfd_requirements num_cells ram_capacity_gb
          num_ram_channels ram_speed_mts num_processors num_cpu_cores
          cpu_speed_ghz cpu_l3_cache_capacity_mb gpu_vram_gb).
Proof.
  assert (H1 := stateless_hardware_checker_functions num_cells
                  ram_capacity_gb num_ram_channels ram_speed_mts
                  num_cpu_cores cpu_speed_ghz cpu_l3_cache_capacity_mb
                  gpu_vram_gb).
  assert (H2 := stateless_ofhc_functions num_cells ram_capacity_gb
                  num_ram_channels ram_speed_mts num_processors num_cpu_cores
                  cpu_speed_ghz cpu_l3_cache_capacity_mb gpu_vram_gb).
  unfold hardware_checker.estimate_cfd_requirements,
    ofhc.estimate_cfd_requirements, hardware_checker.ranked, ofhc.ranked.
  repeat split; stateless_steps; intros; apply stateless_print.
Qed.

Lemma skipn_length_app {A} (l out : list A) :
  skipn (length l) (l ++ out) = out.
Proof. induction l as [|x l IH]; [reflexivity|exact IH]. Qed.

(** A second run from the world the first run has left returns what the
    first returned and prints the same lines again. *)
Lemma stateless_second_run {A} (m : Py A) (w : World) :
  stateless m ->
  fst (m (snd (m w))) = fst (m w)
  /\ printed m (snd (m w)) = printed m w
  /\ module_names (snd (m (snd (m w)))) = module_names w.
Proof.
  intros [v [out H]]. unfold printed. rewrite !H.
  cbn [fst snd emit stdout module_names].
  rewrite !skipn_length_app. repeat split.
Qed.

(** ** No validation at the entry point *)

Lemma ram_capacity_raises (num_cells actual_ram_capacity_gb : Q) (w : World) :
  num_cells == 0 ->
  estimate_bottleneck_ram_capacity num_cells actual_ram_capacity_gb w
  = (Raised ZeroDivisionError, w).
Proof.
  intros H. unfold estimate_bottleneck_ram_capacity.
  apply checked_requirements_raises.
  now apply Qmult_zero_l, Qdiv_zero_l.
Qed.

Lemma hardware_checker_ram_channels_raises
  (num_cores num_ram_channels : Q) (w : World) :
  num_cores == 0 \/ num_ram_channels == 0 ->
  hardware_checker.estimate_bottleneck_ram_channels num_cores
    num_ram_channels w
  = (Raised ZeroDivisionError, w).
Proof.
  intros H. unfold hardware_checker.estimate_bottleneck_ram_channels, bind.
  destruct (Qeq_dec num_ram_channels 0) as [Hr|Hr].
  - now rewrite (truediv_raises _ _ _ Hr).
  - rewrite (truediv_returns _ _ _ Hr).
    apply checked_requirements_raises.
    destruct H as [H|H]; [now apply Qdiv_zero_l | contradiction].
Qed.

Lemma Qdiv_neg_nonpos (a q : Q) : 0 <= a -> q < 0 -> a / q <= 0.
Proof.
  intros Ha Hq.
  assert (Hp : 0 < - q) by (apply Qopp_lt_compat in Hq; exact Hq).
  assert (Hz : ~ q == 0).
  { intros E. rewrite E in Hq. now apply Qlt_irrefl in Hq. }
  setoid_replace (a / q) with (- (a / - q)) by (field; exact Hz).
  apply (Qopp_le_compat 0 (a / - q)).
  apply Qle_shift_div_l; [exact Hp|]. now rewrite Qmult_0_l.
Qed.

Lemma cap_advisory_negative_cells (num_cells total_cores : Q) :
  num_cells < 0 -> 0 < total_cores -> cap_advisory num_cells total_cores = [].
Proof.
  intros Hn Hc. unfold cap_advisory, PyNum.gt.
  replace (PyNum.lt 1 (50000 / (num_cells / total_cores))) with false;
    [reflexivity|].
  symmetry. apply lt_false_iff.
  apply Qle_trans with 0; [|discriminate].
  apply Qdiv_neg_nonpos; [discriminate|].
  apply Qlt_shift_div_r; [exact Hc|]. now rewrite Qmult_0_l.
Qed.

(** C3, as the code has it (the claim itself fails on the code).
    [estimate_cfd_requirements] of [hardware_checker.py] validates
    nothing.  When the cell count, the core
    count or the channel count is zero, the run ends with the
    [ZeroDivisionError] of the first division by zero inside an estimator,
    and has printed nothing.  A negative cell count is not rejected: with
    positive core and channel counts the run returns and prints the seven
    ranked rows. *)
Theorem evaluation_without_validation
  (num_cells ram_capacity_gb num_ram_channels ram_speed_mts num_cpu_cores
     cpu_speed_ghz cpu_l3_cache_capacity_mb gpu_vram_gb : Q) (w : World) :
  (num_cells == 0 \/ num_cpu_cores == 0 \/ num_ram_channels == 0 ->
   hardware_checker.estimate_cfd_requirements num_cells ram_capacity_gb
     num_ram_channels ram_speed_mts num_cpu_cores cpu_speed_ghz
     cpu_l3_cache_capacity_mb gpu_vram_gb w
   = (Raised ZeroDivisionError, w))
  /\ (num_cells < 0 -> 0 < num_cpu_cores -> 0 < num_ram_channels ->
      exists rows,
        hardware_checker.estimate_cfd_requirements num_cells ram_capacity_gb
          num_ram_channels ram_speed_mts num_cpu_cores cpu_speed_ghz
          cpu_l3_cache_capacity_mb gpu_vram_gb w
        = (Returned tt, emit w rows)
        /\ length rows = 7%nat).
Proof.
  split.
  - intros H.
    unfold hardware_checker.estimate_cfd_requirements,
      hardware_checker.ranked, hardware_checker.functions, bind.
    destruct (Qeq_dec num_cells 0) as [Hn|Hn].
    + now rewrite (ram_capacity_raises _ _ _ Hn).
    + rewrite (ram_capacity_returns _ _ _ Hn).
      rewrite hardware_checker_ram_channels_raises; [reflexivity|].
      destruct H as [H|[H|H]]; [contradiction | now left | now right].
  - intros Hn Hc Hr.
    exists (map row
              (sorted ratio
                 (hardware_checker_results num_cells ram_capacity_gb
                    num_ram_channels ram_speed_mts num_cpu_cores
                    cpu_speed_ghz cpu_l3_cache_capacity_mb gpu_vram_gb))).
    split.
    + rewrite hardware_checker_facts.estimate_cfd_requirements_returns.
      * now rewrite (cap_advisory_negative_cells _ _ Hn Hc).
      * intros E. rewrite E in Hn. now apply Qlt_irrefl in Hn.
      * now apply Qpos_nonzero.
      * now apply Qpos_nonzero.
    + rewrite length_map.
      rewrite <- (Permutation_length (sorted_perm ratio _)). reflexivity.
Qed.

Lemma evaluation_without_validation_witness :
  (0 == 0 \/ 20 == 0 \/ 4 == 0) /\ -1 < 0 /\ 0 < 20 /\ 0 < 4
  /\ hardware_checker.estimate_cfd_requirements 0 64 4 2700 20 2 64 0
       empty_world
     = (Raised ZeroDivisionError, empty_world)
  /\ exists rows,
       hardware_checker.estimate_cfd_requirements (-1) 64 4 2700 20 2 64 0
         empty_world
       = (Returned tt, emit empty_world rows)
       /\ length rows = 7%nat.
Proof.
  assert (Hz : 0 == 0 \/ 20 == 0 \/ 4 == 0) by (left; reflexivity).
  assert (Hn : -1 < 0) by reflexivity.
  assert (Hc : 0 < 20) by reflexivity.
  assert (Hr : 0 < 4) by reflexivity.
  repeat (split; [assumption|]).
  split.
  - exact (proj1 (evaluation_without_validation 0 64 4 2700 20 2 64 0
                    empty_world) Hz).
  - exact (proj2 (evaluation_without_validation (-1) 64 4 2700 20 2 64 0
                    empty_world) Hn Hc Hr).
Defined.

(** C3 fails on the code: a run with cell count -1 is not rejected, it
    returns and prints seven rows; and a run with zero RAM channels ends
    with the bare [ZeroDivisionError] of the division inside the RAM-channel
    estimator, which runs after the RAM-capacity estimator has returned its
    result. *)
Lemma no_entry_validation_counterexample :
  fst (hardware_checker.estimate_cfd_requirements (-1) 64 4 2700 20 2 64 0
         empty_world) = Returned tt
  /\ length (stdout (snd (hardware_checker.estimate_cfd_requirements
                            (-1) 64 4 2700 20 2 64 0 empty_world))) = 7%nat
  /\ fst (estimate_bottleneck_ram_capacity 10000000 64 empty_world)
     = Returned (scored "RAM Capacity (GB)" 64 (10000000 / 1000000 * 2))
  /\ hardware_checker.estimate_bottleneck_ram_channels 20 0 empty_world
     = (Raised ZeroDivisionError, empty_world)
  /\ hardware_checker.estimate_cfd_requirements 10000000 64 0 2700 20 2 64 0
       empty_world
     = (Raised ZeroDivisionError, empty_world).
Proof. repeat split; vm_compute; reflexivity. Qed.

(** ** The RAM-channel estimators of the two scripts *)

Lemma lt_proper (x y z : Q) : x == y -> PyNum.lt x z = PyNum.lt y z.
Proof.
  intros E. destruct (PyNum.lt y z) eqn:Hy.
  - apply lt_true_iff. apply lt_true_iff in Hy. now rewrite E.
  - apply lt_false_iff. apply lt_false_iff in Hy. now rewrite E.
Qed.



(** [ofhc.py] has the direction of C4: the channel count over a quarter of
    the total core count. *)
Lemma ofhc_ram_channels_actual_over_required
  (num_processors num_cores num_ram_channels : Q) (w : World) :
  0 < num_processors -> 0 < num_cores -> 0 < num_ram_channels ->
  exists r,
    ofhc.estimate_bottleneck_ram_channels num_processors num_cores
      num_ram_channels w = (Returned r, w)
    /\ r = scored "RAM Channels" num_ram_channels
             (num_cores * num_processors / 4)
    /\ ratio r = num_ram_channels / (num_cores * num_processors / 4)
    /\ actual_fmt r = fmt num_ram_channels
    /\ target_fmt r = fmt (num_cores * num_processors / 4).
Proof.
  intros Hp Hc Hr. eexists. split.
  - apply ofhc_facts.ram_channels_returns_factored; now apply Qpos_nonzero.
  - repeat split.
Qed.

(** [hardware_checker.py] has the same ratio in value, from the pair
    (4, cores per channel). *)
Lemma hardware_checker_ram_channels_limit_over_load
  (num_cores num_ram_channels : Q) (w : World) :
  0 < num_cores -> 0 < num_ram_channels ->
  exists r,
    hardware_checker.estimate_bottleneck_ram_channels num_cores
      num_ram_channels w = (Returned r, w)
    /\ r = scored "RAM Channels" 4 (num_cores / num_ram_channels)
    /\ ratio r == num_ram_channels / (num_cores / 4).
Proof.
  intros Hc Hr. eexists. split.
  - apply hardware_checker_facts.ram_channels_returns; now apply Qpos_nonzero.
  - split; [reflexivity|]. cbn [ratio scored].
    field. split; now apply Qpos_nonzero.
Qed.

(** C4 at 20 cores and 2 channels in [hardware_checker.py].  The ratio has
    the value of the claim, 2 / (20 / 4), but the quantity in the place of
    the actual value is the limit of 4 cores per channel, shown as "4.00",
    not the channel count 2, and the quantity in the place of the required
    value is the 10 cores per channel of the machine, shown as "10.0", not
    the 5 required channels. *)
Theorem hardware_checker_ram_channels_swapped_fields :
  exists r,
    hardware_checker.estimate_bottleneck_ram_channels 20 2 empty_world
    = (Returned r, empty_world)
    /\ r = scored "RAM Channels" 4 (20 / 2)
    /\ ratio r == 2 / (20 / 4)
    /\ actual_fmt r = "4.00" /\ fmt 2 = "2.00"
    /\ target_fmt r = "10.0" /\ fmt (20 / 4) = "5.00".
Proof.
  eexists. split; [vm_compute; reflexivity|].
  repeat split.
Qed.




(** ** The CPU-core-count estimator *)

Lemma gt_one_iff (q : Q) : 0 < q -> (PyNum.gt (50000 / q) 1 = true <-> q < 50000).
Proof.
  intros Hq. unfold PyNum.gt. rewrite lt_true_iff. split; intros H.
  - apply Qnot_le_lt. intros Hle.
    apply (Qlt_not_le _ _ H).
    apply Qle_shift_div_r; [exact Hq|]. now rewrite Qmult_1_l.
  - apply Qlt_shift_div_l; [exact Hq|]. now rewrite Qmult_1_l.
Qed.

Lemma cap_advisory_emitted (num_cells total_cores : Q) :
  0 < num_cells -> 0 < total_cores ->
  (num_cells / total_cores < 50000 ->
   cap_advisory num_cells total_cores
   = [advisory
        (PyNum.round (num_cells / (50000 / (num_cells / total_cores))))])
  /\ (~ num_cells / total_cores < 50000 ->
      cap_advisory num_cells total_cores = []).
Proof.
  intros Hn Hc.
  assert (Hq : 0 < num_cells / total_cores).
  { apply Qlt_shift_div_l; [exact Hc|]. now rewrite Qmult_0_l. }
  unfold cap_advisory.
  destruct (PyNum.gt (50000 / (num_cells / total_cores)) 1) eqn:E.
  - split; [reflexivity|]. intros H. exfalso. apply H.
    now apply gt_one_iff.
  - split; [|reflexivity]. intros H.
    apply (gt_one_iff _ Hq) in H. congruence.
Qed.

(** [round] gives a nearest integer. *)
Lemma round_within_half (x : Q) :
  x - (1 # 2) <= inject_Z (PyNum.round x)
  /\ inject_Z (PyNum.round x) <= x + (1 # 2).
Proof.
  assert (H1 := Qfloor_le x). assert (H2 := Qlt_floor x).
  rewrite inject_Z_plus in H2. change (inject_Z 1) with 1 in H2.
  unfold PyNum.round.
  destruct (Qcompare (x - inject_Z (Qfloor x)) (1 # 2)) eqn:E.
  - apply Qeq_alt in E.
    destruct (Z.even (Qfloor x));
      [|rewrite inject_Z_plus; change (inject_Z 1) with 1]; split; lra.
  - apply Qlt_alt in E. split; lra.
  - apply Qgt_alt in E.
    rewrite inject_Z_plus. change (inject_Z 1) with 1. split; lra.
Qed.

(** The same with room for the rounding of binary64: one part in 10^9 of
    the number on either side. *)
Lemma round_near (x : Q) :
  0 <= x ->
  x - (1 # 2) - x * (1 # 1000000000) <= inject_Z (PyNum.round x)
  /\ inject_Z (PyNum.round x) <= x + (1 # 2) + x * (1 # 1000000000).
Proof.
  intros Hx. destruct (round_within_half x) as [H1 H2]. split; lra.
Qed.

Lemma round_near_abs (x : Q) :
  x - (1 # 2) - Qabs x * (1 # 1000000000) <= inject_Z (PyNum.round x)
  /\ inject_Z (PyNum.round x) <= x + (1 # 2) + Qabs x * (1 # 1000000000).
Proof.
  assert (Hx := Qabs_nonneg x).
  destruct (round_within_half x) as [H1 H2]. split; lra.
Qed.

Lemma advised_count_pos (num_cells total_cores : Q) :
  0 < num_cells -> 0 < total_cores ->
  0 <= num_cells / (50000 / (num_cells / total_cores)).
Proof.
  intros Hn Hc. apply Qlt_le_weak.
  assert (Hq : 0 < num_cells / total_cores).
  { apply Qlt_shift_div_l; [exact Hc|]. now rewrite Qmult_0_l. }
  assert (Hm : 0 < 50000 / (num_cells / total_cores)).
  { apply Qlt_shift_div_l; [exact Hq|]. now rewrite Qmult_0_l. }
  apply Qlt_shift_div_l; [exact Hm|]. now rewrite Qmult_0_l.
Qed.

(** The text of the advisory line for a cell count [n]. *)
Lemma advisory_text (n : Z) :
  advisory n
  = ("Do not use all cores for computing. Limit the simulation to "
       ++ PyStr.of_Z n)%string.
Proof. reflexivity. Qed.

(** C6. For every positive cell count and positive core count, the
    CPU-core-count estimator returns a result whose ratio is
    cores / (cells / 100000), where cores is the total core count (cores
    times processors in [ofhc.py]).  It prints the core-cap advisory exactly
    when cells / cores < 50000 and prints nothing otherwise.  The advisory
    is the line "Do not use all cores for computing. Limit the simulation
    to n", where the integer n is the advised cell count
    cells / (50000 / (cells / cores)) rounded to a nearest integer: n lies
    within a half of it, with room for the rounding of binary64 of one part
    in 10^9.  For 10 million cells and 20 cores the ratio is 0.20, the mark
    is the fail mark and nothing is printed. *)
Theorem cpu_count_ratio_and_advisory
  (num_cells num_cpu_cores num_processors : Q) (w : World) :
  0 < num_cells -> 0 < num_cpu_cores -> 0 < num_processors ->
  (exists r out,
     hardware_checker.estimate_bottleneck_cpu_count num_cells num_cpu_cores w
     = (Returned r, emit w out)
     /\ ratio r = num_cpu_cores / (num_cells / 100000)
     /\ (num_cells / num_cpu_cores < 50000 ->
         exists n : Z,
           out = [("Do not use all cores for computing. Limit the simulation to "
                     ++ PyStr.of_Z n)%string]
           /\ num_cells / (50000 / (num_cells / num_cpu_cores)) - (1 # 2)
              - num_cells / (50000 / (num_cells / num_cpu_cores))
                * (1 # 1000000000)
              <= inject_Z n
           /\ inject_Z n
              <= num_cells / (50000 / (num_cells / num_cpu_cores)) + (1 # 2)
                 + num_cells / (50000 / (num_cells / num_cpu_cores))
                   * (1 # 1000000000))
     /\ (~ num_cells / num_cpu_cores < 50000 -> out = []))
  /\ (exists r out,
        ofhc.estimate_bottleneck_cpu_count num_cells num_processors
          num_cpu_cores w
        = (Returned r, emit w out)
        /\ ratio r = num_cpu_cores * num_processors / (num_cells / 100000)
        /\ (num_cells / (num_cpu_cores * num_processors) < 50000 ->
            exists n : Z,
              out = [("Do not use all cores for computing. Limit the simulation to "
                        ++ PyStr.of_Z n)%string]
              /\ num_cells
                 / (50000 / (num_cells / (num_cpu_cores * num_processors)))
                 - (1 # 2)
                 - num_cells
                   / (50000 / (num_cells / (num_cpu_cores * num_processors)))
                   * (1 # 1000000000)
                 <= inject_Z n
              /\ inject_Z n
                 <= num_cells
                    / (50000 / (num_cells / (num_cpu_cores * num_processors)))
                    + (1 # 2)
                    + num_cells
                      / (50000
                         / (num_cells / (num_cpu_cores * num_processors)))
                      * (1 # 1000000000))
        /\ (~ num_cells / (num_cpu_cores * num_processors) < 50000 ->
            out = []))
  /\ (exists r,
        hardware_checker.estimate_bottleneck_cpu_count 10000000 20 w
        = (Returned r, w)
        /\ ofhc.estimate_bottleneck_cpu_count 10000000 2 10 w
           = (Returned r, w)
        /\ ratio r == 20 # 100
        /\ mark r = fail_mark).
Proof.
  intros Hn Hc Hp.
  assert (Ht : 0 < num_cpu_cores * num_processors)
    by now apply Qmult_lt_0_compat.
  split; [|split].
  - exists (scored "CPU Cores" num_cpu_cores (num_cells / 100000)),
      (cap_advisory num_cells num_cpu_cores).
    split.
    + apply hardware_checker_facts.cpu_count_returns; now apply Qpos_nonzero.
    + split; [reflexivity|].
      destruct (cap_advisory_emitted num_cells num_cpu_cores Hn Hc)
        as [Hy Hno].
      split; [|exact Hno]. intros Hlt.
      exists (PyNum.round
                (num_cells / (50000 / (num_cells / num_cpu_cores)))).
      split; [now rewrite (Hy Hlt), advisory_text|].
      apply round_near. now apply advised_count_pos.
  - exists (scored "CPU Cores" (num_cpu_cores * num_processors)
              (num_cells / 100000)),
      (cap_advisory num_cells (num_cpu_cores * num_processors)).
    split.
    + apply ofhc_facts.cpu_count_returns_factored; now apply Qpos_nonzero.
    + split; [reflexivity|].
      destruct (cap_advisory_emitted num_cells
                  (num_cpu_cores * num_processors) Hn Ht) as [Hy Hno].
      split; [|exact Hno]. intros Hlt.
      exists (PyNum.round
                (num_cells
                 / (50000 / (num_cells / (num_cpu_cores * num_processors))))).
      split; [now rewrite (Hy Hlt), advisory_text|].
      apply round_near. now apply advised_count_pos.
  - exists (scored "CPU Cores" 20 (10000000 / 100000)).
    split.
    + rewrite hardware_checker_facts.cpu_count_returns by nonzero.
      now rewrite <- (emit_nil w) at 2.
    + split.
      * rewrite ofhc_facts.cpu_count_returns_factored by nonzero.
        now rewrite <- (emit_nil w) at 2.
      * split; reflexivity.
Qed.

Lemma cpu_count_ratio_and_advisory_witness :
  0 < 100000 /\ 0 < 20 /\ 0 < 1 /\ 100000 / 20 < 50000 /\
  exists r out,
    hardware_checker.estimate_bottleneck_cpu_count 100000 20 empty_world
    = (Returned r, emit empty_world out)
    /\ ratio r = 20 / (100000 / 100000)
    /\ exists n : Z,
         out = [("Do not use all cores for computing. Limit the simulation to "
                   ++ PyStr.of_Z n)%string]
         /\ 100000 / (50000 / (100000 / 20)) - (1 # 2)
            - 100000 / (50000 / (100000 / 20)) * (1 # 1000000000)
            <= inject_Z n
         /\ inject_Z n
            <= 100000 / (50000 / (100000 / 20)) + (1 # 2)
               + 100000 / (50000 / (100000 / 20)) * (1 # 1000000000).
Proof.
  assert (Hn : 0 < 100000) by reflexivity.
  assert (Hc : 0 < 20) by reflexivity.
  assert (Hp : 0 < 1) by reflexivity.
  assert (Hlt : 100000 / 20 < 50000) by reflexivity.
  repeat (split; [assumption|]).
  destruct (proj1 (cpu_count_ratio_and_advisory 100000 20 1 empty_world
                     Hn Hc Hp))
    as (r & out & Hrun & Hratio & Hadv & _).
  exists r, out. split; [exact Hrun|]. split; [exact Hratio|].
  exact (Hadv Hlt).
Defined.

Example cpu_count_advisory_text :
  printed (hardware_checker.estimate_bottleneck_cpu_count 100000 20)
    empty_world
  = ["Do not use all cores for computing. Limit the simulation to 10000"].
Proof. reflexivity. Qed.

(** ** Ratios of valid profiles *)

Lemma Qdiv_nonneg (n d : Q) : 0 <= n -> 0 < d -> 0 <= n / d.
Proof.
  intros Hn Hd. apply Qle_shift_div_l; [exact Hd|]. now rewrite Qmult_0_l.
Qed.

Lemma Qdiv_pos (n d : Q) : 0 < n -> 0 < d -> 0 < n / d.
Proof.
  intros Hn Hd. apply Qlt_shift_div_l; [exact Hd|]. now rewrite Qmult_0_l.
Qed.

(** Closes [0 < e] and [0 <= e] for products and quotients. *)
Ltac positive :=
  repeat first
    [ assumption
    | reflexivity
    | discriminate
    | apply Qdiv_pos
    | apply Qmult_lt_0_compat
    | apply Qdiv_nonneg
    | apply Qmult_le_0_compat
    | apply Qlt_le_weak; assumption ].




(** ** A machine without GPU memory *)

Lemma zero_ratio (t : string) (d : Q) :
  ratio (scored t 0 d) == 0 /\ mark (scored t 0 d) = fail_mark.
Proof.
  assert (E : 0 / d == 0) by (unfold Qdiv; apply Qmult_0_l).
  split; [exact E|].
  cbn [mark scored]. rewrite (lt_proper _ _ 1 E). reflexivity.
Qed.




(** ** The RAM-bandwidth estimator *)

(** C8. For every positive core count, channel count and RAM speed, the
    RAM-bandwidth estimator returns a result whose ratio is
    (channels * speed_mts * 1e6 * 8 / 1e9 * 0.7) / (total_cores * 2), the
    total core count being cores times processors in [ofhc.py].  For 4
    channels, 2700 MT/s and 20 cores the actual bandwidth is 60.48, the
    required bandwidth is 40, the ratio is 1.512 and the mark is the pass
    mark. *)
Theorem ram_bandwidth_ratio
  (num_cpu_cores num_processors ram_speed_mts num_ram_channels : Q)
  (w : World) :
  0 < num_cpu_cores -> 0 < num_processors -> 0 < ram_speed_mts ->
  0 < num_ram_channels ->
  (exists r,
     hardware_checker.estimate_bottleneck_ram_bandwidth num_cpu_cores
       ram_speed_mts num_ram_channels w = (Returned r, w)
     /\ ratio r
        == (num_ram_channels * ram_speed_mts * 1000000 * 8 / 1000000000
            * (7 # 10)) / (num_cpu_cores * 2))
  /\ (exists r,
        ofhc.estimate_bottleneck_ram_bandwidth num_processors num_cpu_cores
          ram_speed_mts num_ram_channels w = (Returned r, w)
        /\ ratio r
           == (num_ram_channels * ram_speed_mts * 1000000 * 8 / 1000000000
               * (7 # 10)) / (num_processors * num_cpu_cores * 2))
  /\ (exists r actual required,
        hardware_checker.estimate_bottleneck_ram_bandwidth 20 2700 4 w
        = (Returned r, w)
        /\ ofhc.estimate_bottleneck_ram_bandwidth 1 20 2700 4 w
           = (Returned
                (scored "RAM Bandwidth (GB/s)" actual (1 * 20 * 2)), w)
        /\ r = scored "RAM Bandwidth (GB/s)" actual required
        /\ actual == 6048 # 100
        /\ required == 40
        /\ ratio r == 1512 # 1000
        /\ mark r = pass_mark).
Proof.
  intros Hc Hp Hs Hr.
  assert (Hc' : ~ num_cpu_cores == 0) by now apply Qpos_nonzero.
  assert (Hp' : ~ num_processors == 0) by now apply Qpos_nonzero.
  split; [|split].
  - eexists. split.
    + now apply hardware_checker_facts.ram_bandwidth_returns.
    + cbn [ratio scored]. field. exact Hc'.
  - eexists. split.
    + now apply ofhc_facts.ram_bandwidth_returns_factored.
    + cbn [ratio scored]. field. split; assumption.
  - eexists. eexists. eexists. split.
    + apply hardware_checker_facts.ram_bandwidth_returns. discriminate.
    + split.
      * apply ofhc_facts.ram_bandwidth_returns_factored; discriminate.
      * repeat split.
Qed.

Lemma ram_bandwidth_ratio_witness :
  0 < 10 /\ 0 < 2 /\ 0 < 2133 /\ 0 < 4 /\
  exists r,
    ofhc.estimate_bottleneck_ram_bandwidth 2 10 2133 4 empty_world
    = (Returned r, empty_world)
    /\ ratio r
       == (4 * 2133 * 1000000 * 8 / 1000000000 * (7 # 10)) / (2 * 10 * 2).
Proof.
  assert (Hc : 0 < 10) by reflexivity.
  assert (Hp : 0 < 2) by reflexivity.
  assert (Hs : 0 < 2133) by reflexivity.
  assert (Hr : 0 < 4) by reflexivity.
  repeat (split; [assumption|]).
  exact (proj1 (proj2 (ram_bandwidth_ratio 10 2 2133 4 empty_world
                         Hc Hp Hs Hr))).
Defined.

(** ** Doubling the cell count *)

Lemma Qdiv_le_antitone (n d d' : Q) :
  0 <= n -> 0 < d -> d <= d' -> n / d' <= n / d.
Proof.
  intros Hn Hd Hdd.
  assert (Hd' : 0 < d') by (apply Qlt_le_trans with d; assumption).
  apply Qle_shift_div_r; [exact Hd'|].
  setoid_replace n with (n / d * d) at 1
    by (field; now apply Qpos_nonzero).
  rewrite (Qmult_comm (n / d) d), (Qmult_comm (n / d) d').
  apply Qmult_le_compat_r; [exact Hdd | now apply Qdiv_nonneg].
Qed.

Lemma doubled_requirement_ratio (n d d' : Q) :
  0 <= n -> 0 < d -> d' == 2 * d -> n / d' <= n / d.
Proof.
  intros Hn Hd E. apply Qdiv_le_antitone; [exact Hn | exact Hd|].
  rewrite E. setoid_replace d with (1 * d) at 1 by ring.
  apply Qmult_le_compat_r; [discriminate | now apply Qlt_le_weak].
Qed.

(** C9. For every valid profile of [hardware_checker.py] with positive cell
    count, both the run on the profile and the run with the cell count
    doubled return their seven results, in the same order of resources (RAM
    capacity, RAM channels, RAM bandwidth, CPU cores, CPU clock speed, L3
    cache, GPU memory), and the ratio of each resource after doubling is at
    most its ratio before. *)
Theorem doubling_cells_never_raises_a_ratio
  (num_cells ram_capacity_gb num_ram_channels ram_speed_mts num_cpu_cores
     cpu_speed_ghz cpu_l3_cache_capacity_mb gpu_vram_gb : Q) (w : World) :
  0 < num_cells -> 0 < num_cpu_cores -> 0 < num_ram_channels ->
  0 <= ram_capacity_gb -> 0 <= ram_speed_mts -> 0 <= cpu_speed_ghz ->
  0 <= cpu_l3_cache_capacity_mb -> 0 <= gpu_vram_gb ->
  exists before after,
    value_of
      (hardware_checker.functions num_cells ram_capacity_gb num_ram_channels
         ram_speed_mts num_cpu_cores cpu_speed_ghz cpu_l3_cache_capacity_mb
         gpu_vram_gb) w = Some before
    /\ value_of
         (hardware_checker.functions (2 * num_cells) ram_capacity_gb
            num_ram_channels ram_speed_mts num_cpu_cores cpu_speed_ghz
            cpu_l3_cache_capacity_mb gpu_vram_gb) w = Some after
    /\ length before = 7%nat
    /\ map title before
       = [ "RAM Capacity (GB)"; "RAM Channels"; "RAM Bandwidth (GB/s)";
           "CPU Cores"; "CPU Clock-Speed (GHZ)"; "CPU L3 Cache (MB)";
           "Virtual RAM (GB)" ]
    /\ Forall2 (fun b a => title a = title b /\ ratio a <= ratio b)
         before after.
Proof.
  intros Hn Hc Hr H1 H2 H3 H4 H5.
  assert (Hn2 : 0 < 2 * num_cells) by now apply Qmult_lt_0_compat.
  eexists. eexists. unfold value_of.
  rewrite !hardware_checker_facts.functions_returns
    by now apply Qpos_nonzero.
  cbn [fst]. split; [reflexivity|]. split; [reflexivity|].
  split; [reflexivity|]. split; [reflexivity|].
  unfold hardware_checker_results.
  repeat (apply Forall2_cons; [split; [reflexivity|]|]);
    [..|apply Forall2_nil]; cbn [ratio scored]; try apply Qle_refl;
    (apply doubled_requirement_ratio; [positive | positive | field]).
Qed.

Lemma doubling_cells_never_raises_a_ratio_witness :
  0 < 10000000 /\ 0 < 20 /\ 0 < 4 /\ 0 <= 64 /\ 0 <= 2700 /\ 0 <= 2
  /\ 0 <= 0
  /\ exists before after,
       value_of (hardware_checker.functions 10000000 64 4 2700 20 2 64 0)
         empty_world = Some before
       /\ value_of
            (hardware_checker.functions (2 * 10000000) 64 4 2700 20 2 64 0)
            empty_world = Some after
       /\ Forall2 (fun b a => title a = title b /\ ratio a <= ratio b)
            before after.
Proof.
  assert (Hn : 0 < 10000000) by reflexivity.
  assert (Hc : 0 < 20) by reflexivity.
  assert (Hr : 0 < 4) by reflexivity.
  assert (H1 : 0 <= 64) by discriminate.
  assert (H2 : 0 <= 2700) by discriminate.
  assert (H3 : 0 <= 2) by discriminate.
  assert (H5 : 0 <= 0) by discriminate.
  repeat (split; [assumption|]).
  destruct (doubling_cells_never_raises_a_ratio
              10000000 64 4 2700 20 2 64 0 empty_world
              Hn Hc Hr H1 H2 H3 H1 H5)
    as (before & after & Hb & Ha & _ & _ & Hle).
  exists before, after. repeat split; assumption.
Defined.

(** The same law in [ofhc.py], with the total core count
    cores times processors. *)
Lemma ofhc_doubling_cells_never_raises_a_ratio
  (num_cells ram_capacity_gb num_ram_channels ram_speed_mts num_processors
     num_cpu_cores cpu_speed_ghz cpu_l3_cache_capacity_mb gpu_vram_gb : Q)
  (w : World) :
  0 < num_cells -> 0 < num_processors -> 0 < num_cpu_cores ->
  0 < num_ram_channels ->
  0 <= ram_capacity_gb -> 0 <= ram_speed_mts -> 0 <= cpu_speed_ghz ->
  0 <= cpu_l3_cache_capacity_mb -> 0 <= gpu_vram_gb ->
  exists before after,
    value_of
      (ofhc.functions num_cells ram_capacity_gb num_ram_channels
         ram_speed_mts num_processors num_cpu_cores cpu_speed_ghz
         cpu_l3_cache_capacity_mb gpu_vram_gb) w = Some before
    /\ value_of
         (ofhc.functions (2 * num_cells) ram_capacity_gb num_ram_channels
            ram_speed_mts num_processors num_cpu_cores cpu_speed_ghz
            cpu_l3_cache_capacity_mb gpu_vram_gb) w = Some after
    /\ length before = 7%nat
    /\ Forall2 (fun b a => title a = title b /\ ratio a <= ratio b)
         before after.
Proof.
  intros Hn Hp Hc Hr H1 H2 H3 H4 H5.
  assert (Hn2 : 0 < 2 * num_cells) by now apply Qmult_lt_0_compat.
  eexists. eexists. unfold value_of.
  rewrite !ofhc_facts.functions_returns_factored by now apply Qpos_nonzero.
  cbn [fst]. split; [reflexivity|]. split; [reflexivity|].
  split; [reflexivity|].
  unfold ofhc_results.
  repeat (apply Forall2_cons; [split; [reflexivity|]|]);
    [..|apply Forall2_nil]; cbn [ratio scored]; try apply Qle_refl;
    (apply doubled_requirement_ratio; [positive | positive | field]).
Qed.

(** * Further properties of the estimators *)

(** ** When a scored pair passes *)

Lemma Qle_div_one (n d : Q) : 0 < d -> (1 <= n / d <-> d <= n).
Proof.
  intros Hd. split; intros H.
  - setoid_replace n with (n / d * d) by (field; now apply Qpos_nonzero).
    setoid_replace d with (1 * d) at 1 by ring.
    apply Qmult_le_compat_r; [exact H | now apply Qlt_le_weak].
  - apply Qle_shift_div_l; [exact Hd|]. now rewrite Qmult_1_l.
Qed.

Lemma Qlt_div_one (n d : Q) : 0 < d -> (n / d < 1 <-> n < d).
Proof.
  intros Hd. split; intros H.
  - apply Qnot_le_lt. intros Hle. apply (Qle_div_one n d Hd) in Hle.
    exact (Qlt_not_le _ _ H Hle).
  - apply Qlt_shift_div_r; [exact Hd|]. now rewrite Qmult_1_l.
Qed.

Lemma scored_pass_iff (t : string) (n d : Q) :
  0 < d -> (mark (scored t n d) = pass_mark <-> d <= n).
Proof.
  intros Hd. rewrite scored_mark_pass. now apply Qle_div_one.
Qed.

Lemma scored_fail_iff (t : string) (n d : Q) :
  0 < d -> (mark (scored t n d) = fail_mark <-> n < d).
Proof.
  intros Hd. rewrite scored_mark_fail. now apply Qlt_div_one.
Qed.

(** The outcome of the ratio scorer in all cases. *)
Lemma checked_requirements_outcome (t : string) (n d : Q) (w : World) :
  checked_requirements t n d w
  = (if PyNum.is_zero d then Raised ZeroDivisionError
     else Returned (scored t n d), w).
Proof.
  destruct (PyNum.is_zero d) eqn:E.
  - apply checked_requirements_raises. now apply is_zero_true_iff.
  - apply checked_requirements_returns. now apply is_zero_false_iff.
Qed.

Lemma checked_requirements_raises_iff (t : string) (n d : Q) (w : World) :
  fst (checked_requirements t n d w) = Raised ZeroDivisionError <-> d == 0.
Proof.
  rewrite checked_requirements_outcome, <- is_zero_true_iff.
  destruct (PyNum.is_zero d); cbn; split; congruence.
Qed.

(** Linear arithmetic with the constants of the heuristics. *)
Ltac qlin :=
  unfold Qdiv in *;
  change (/ 1000000) with (1 # 1000000) in *;
  change (/ 100000) with (1 # 100000) in *;
  change (/ 1000000000) with (1 # 1000000000) in *;
  change (/ 12) with (1 # 12) in *;
  change (/ 4) with (1 # 4) in *;
  lra.

(** ** Clock speed *)

(** X1.  The clock-speed estimator returns for every input, prints nothing, and
    passes exactly from 3 GHz on. *)
Theorem cpu_speed_passes_from_3ghz (cpu_speed_ghz : Q) (w : World) :
  exists r,
    estimate_bottleneck_cpu_speed cpu_speed_ghz w = (Returned r, w)
    /\ ratio r = cpu_speed_ghz / 3
    /\ (mark r = pass_mark <-> 3 <= cpu_speed_ghz)
    /\ (mark r = fail_mark <-> cpu_speed_ghz < 3).
Proof.
  eexists. split; [apply cpu_speed_returns|].
  split; [reflexivity|]. split.
  - apply scored_pass_iff. reflexivity.
  - apply scored_fail_iff. reflexivity.
Qed.

(** ** RAM capacity and GPU memory *)

(** X2.  The RAM-capacity estimator raises exactly when the cell count is zero
    and never prints; for a positive cell count it passes exactly when the
    capacity reaches 2 GB per million cells. *)
Theorem ram_capacity_failure_and_threshold
  (num_cells actual_ram_capacity_gb : Q) (w : World) :
  (fst (estimate_bottleneck_ram_capacity num_cells actual_ram_capacity_gb w)
   = Raised ZeroDivisionError <-> num_cells == 0)
  /\ snd (estimate_bottleneck_ram_capacity num_cells actual_ram_capacity_gb w)
     = w
  /\ (0 < num_cells ->
      exists r,
        estimate_bottleneck_ram_capacity num_cells actual_ram_capacity_gb w
        = (Returned r, w)
        /\ (mark r = pass_mark
            <-> 2 * num_cells <= 1000000 * actual_ram_capacity_gb)
        /\ (mark r = fail_mark
            <-> 1000000 * actual_ram_capacity_gb < 2 * num_cells)).
Proof.
  unfold estimate_bottleneck_ram_capacity.
  split; [|split].
  - rewrite checked_requirements_raises_iff. split; intros H; qlin.
  - rewrite checked_requirements_outcome. reflexivity.
  - intros Hn.
    assert (Hd : 0 < num_cells / 1000000 * 2) by positive.
    eexists. split; [apply checked_requirements_returns;
                     now apply Qpos_nonzero|].
    rewrite (scored_pass_iff _ _ _ Hd), (scored_fail_iff _ _ _ Hd).
    split; split; intros H; qlin.
Qed.

Lemma ram_capacity_failure_and_threshold_witness :
  0 < 10000000 /\
  exists r,
    estimate_bottleneck_ram_capacity 10000000 64 empty_world
    = (Returned r, empty_world)
    /\ (mark r = pass_mark <-> 2 * 10000000 <= 1000000 * 64)
    /\ (mark r = fail_mark <-> 1000000 * 64 < 2 * 10000000).
Proof.
  assert (Hn : 0 < 10000000) by reflexivity.
  split; [exact Hn|].
  exact (proj2 (proj2 (ram_capacity_failure_and_threshold 10000000 64
                         empty_world)) Hn).
Defined.

(** X3.  The GPU estimator raises exactly when the cell count is zero and never
    prints; for a positive cell count it passes exactly when the memory
    reaches 1 GB per 12 million cells. *)
Theorem gpu_vram_failure_and_threshold
  (num_cells gpu_vram_gb : Q) (w : World) :
  (fst (estimate_gpu_vram_recommendations num_cells gpu_vram_gb w)
   = Raised ZeroDivisionError <-> num_cells == 0)
  /\ snd (estimate_gpu_vram_recommendations num_cells gpu_vram_gb w) = w
  /\ (0 < num_cells ->
      exists r,
        estimate_gpu_vram_recommendations num_cells gpu_vram_gb w
        = (Returned r, w)
        /\ (mark r = pass_mark <-> num_cells <= 12000000 * gpu_vram_gb)
        /\ (mark r = fail_mark <-> 12000000 * gpu_vram_gb < num_cells)).
Proof.
  unfold estimate_gpu_vram_recommendations.
  change (1 / 12) with (1 # 12).
  split; [|split].
  - rewrite checked_requirements_raises_iff. split; intros H; qlin.
  - rewrite checked_requirements_outcome. reflexivity.
  - intros Hn.
    assert (Hd : 0 < num_cells / 1000000 * (1 # 12)) by positive.
    eexists. split; [apply checked_requirements_returns;
                     now apply Qpos_nonzero|].
    rewrite (scored_pass_iff _ _ _ Hd), (scored_fail_iff _ _ _ Hd).
    split; split; intros H; qlin.
Qed.

Lemma gpu_vram_failure_and_threshold_witness :
  0 < 12000000 /\
  exists r,
    estimate_gpu_vram_recommendations 12000000 1 empty_world
    = (Returned r, empty_world)
    /\ (mark r = pass_mark <-> 12000000 <= 12000000 * 1)
    /\ (mark r = fail_mark <-> 12000000 * 1 < 12000000).
Proof.
  assert (Hn : 0 < 12000000) by reflexivity.
  split; [exact Hn|].
  exact (proj2 (proj2 (gpu_vram_failure_and_threshold 12000000 1
                         empty_world)) Hn).
Defined.

(** ** L3 cache *)

Lemma Qmult_zero_iff (a b : Q) : a * b == 0 <-> a == 0 \/ b == 0.
Proof.
  split.
  - apply Qmult_integral.
  - intros [H|H]; rewrite H; [apply Qmult_0_l | apply Qmult_0_r].
Qed.

(** X4.  The L3 estimators raise exactly when the total core count is zero and
    never print; for positive counts they pass exactly when the cache
    reaches 2 MB per core.  In [ofhc.py] the total is the product of the two
    count arguments. *)
Theorem l3_cache_failure_and_threshold
  (num_cpu_cores num_cores cpu_l3_cache_capacity_mb : Q) (w : World) :
  (fst (hardware_checker.estimate_bottleneck_cpu_l3_cache num_cores
          cpu_l3_cache_capacity_mb w) = Raised ZeroDivisionError
   <-> num_cores == 0)
  /\ (fst (ofhc.estimate_bottleneck_cpu_l3_cache num_cpu_cores num_cores
             cpu_l3_cache_capacity_mb w) = Raised ZeroDivisionError
      <-> num_cpu_cores == 0 \/ num_cores == 0)
  /\ snd (hardware_checker.estimate_bottleneck_cpu_l3_cache num_cores
            cpu_l3_cache_capacity_mb w) = w
  /\ snd (ofhc.estimate_bottleneck_cpu_l3_cache num_cpu_cores num_cores
            cpu_l3_cache_capacity_mb w) = w
  /\ (0 < num_cpu_cores -> 0 < num_cores ->
      exists r1 r2,
        hardware_checker.estimate_bottleneck_cpu_l3_cache num_cores
          cpu_l3_cache_capacity_mb w = (Returned r1, w)
        /\ ofhc.estimate_bottleneck_cpu_l3_cache num_cpu_cores num_cores
             cpu_l3_cache_capacity_mb w = (Returned r2, w)
        /\ (mark r1 = pass_mark <-> 2 * num_cores <= cpu_l3_cache_capacity_mb)
        /\ (mark r2 = pass_mark
            <-> 2 * (num_cpu_cores * num_cores) <= cpu_l3_cache_capacity_mb)).
Proof.
  unfold hardware_checker.estimate_bottleneck_cpu_l3_cache,
    ofhc.estimate_bottleneck_cpu_l3_cache.
  split; [|split; [|split; [|split]]].
  - rewrite checked_requirements_raises_iff. split; intros H; lra.
  - rewrite checked_requirements_raises_iff, <- Qmult_zero_iff.
    split; intros H; lra.
  - rewrite checked_requirements_outcome. reflexivity.
  - rewrite checked_requirements_outcome. reflexivity.
  - intros Hp Hc.
    assert (Ht : 0 < num_cpu_cores * num_cores)
      by now apply Qmult_lt_0_compat.
    assert (H1 : 0 < num_cores * 2) by positive.
    assert (H2 : 0 < num_cpu_cores * num_cores * 2) by positive.
    eexists. eexists.
    split; [apply checked_requirements_returns; now apply Qpos_nonzero|].
    split; [apply checked_requirements_returns; now apply Qpos_nonzero|].
    rewrite (scored_pass_iff _ _ _ H1), (scored_pass_iff _ _ _ H2).
    split; split; intros H; lra.
Qed.

Lemma l3_cache_failure_and_threshold_witness :
  0 < 2 /\ 0 < 10 /\
  exists r1 r2,
    hardware_checker.estimate_bottleneck_cpu_l3_cache 10 25 empty_world
    = (Returned r1, empty_world)
    /\ ofhc.estimate_bottleneck_cpu_l3_cache 2 10 25 empty_world
       = (Returned r2, empty_world)
    /\ (mark r1 = pass_mark <-> 2 * 10 <= 25)
    /\ (mark r2 = pass_mark <-> 2 * (2 * 10) <= 25).
Proof.
  assert (Hp : 0 < 2) by reflexivity.
  assert (Hc : 0 < 10) by reflexivity.
  split; [exact Hp|]. split; [exact Hc|].
  exact (proj2 (proj2 (proj2 (proj2
           (l3_cache_failure_and_threshold 2 10 25 empty_world)))) Hp Hc).
Defined.

(** ** RAM channels *)

Lemma Qdiv_le_iff (a b c : Q) : 0 < c -> (a / c <= b <-> a <= b * c).
Proof.
  intros Hc. split; intros H.
  - setoid_replace a with (a / c * c) by (field; now apply Qpos_nonzero).
    apply Qmult_le_compat_r; [exact H | now apply Qlt_le_weak].
  - now apply Qle_shift_div_r.
Qed.

Lemma Qdiv_gt_iff (a b c : Q) : 0 < c -> (b < a / c <-> b * c < a).
Proof.
  intros Hc. split; intros H.
  - apply Qnot_le_lt. intros Hle. apply (Qdiv_le_iff a b c Hc) in Hle.
    exact (Qlt_not_le _ _ H Hle).
  - now apply Qlt_shift_div_l.
Qed.

(** X5.  [hardware_checker.py] raises when the core count or the channel count is
    zero; [ofhc.py] raises when the core count or the processor count is
    zero, while zero channels give it the ratio 0 and the fail mark.  Neither
    prints.  For positive counts both pass under the same condition: at
    most 4 cores per channel. *)
Theorem ram_channels_failure_and_threshold
  (num_processors num_cores num_ram_channels : Q) (w : World) :
  (fst (hardware_checker.estimate_bottleneck_ram_channels num_cores
          num_ram_channels w) = Raised ZeroDivisionError
   <-> num_cores == 0 \/ num_ram_channels == 0)
  /\ (fst (ofhc.estimate_bottleneck_ram_channels num_processors num_cores
             num_ram_channels w) = Raised ZeroDivisionError
      <-> num_cores == 0 \/ num_processors == 0)
  /\ snd (hardware_checker.estimate_bottleneck_ram_channels num_cores
            num_ram_channels w) = w
  /\ snd (ofhc.estimate_bottleneck_ram_channels num_processors num_cores
            num_ram_channels w) = w
  /\ (0 < num_processors -> 0 < num_cores ->
      exists r,
        ofhc.estimate_bottleneck_ram_channels num_processors num_cores 0 w
        = (Returned r, w)
        /\ ratio r == 0 /\ mark r = fail_mark)
  /\ (0 < num_processors -> 0 < num_cores -> 0 < num_ram_channels ->
      exists r1 r2,
        hardware_checker.estimate_bottleneck_ram_channels num_cores
          num_ram_channels w = (Returned r1, w)
        /\ ofhc.estimate_bottleneck_ram_channels num_processors num_cores
             num_ram_channels w = (Returned r2, w)
        /\ (mark r1 = pass_mark <-> num_cores <= 4 * num_ram_channels)
        /\ (mark r2 = pass_mark
            <-> num_cores * num_processors <= 4 * num_ram_channels)).
Proof.
  split; [|split; [|split; [|split; [|split]]]].
  - split.
    + intros H.
      destruct (Qeq_dec num_cores 0) as [Hc|Hc]; [now left|].
      destruct (Qeq_dec num_ram_channels 0) as [Hr|Hr]; [now right|].
      rewrite (hardware_checker_facts.ram_channels_returns _ _ _ Hc Hr) in H.
      discriminate H.
    + intros H. now rewrite hardware_checker_ram_channels_raises.
  - unfold ofhc.estimate_bottleneck_ram_channels.
    rewrite checked_requirements_raises_iff, <- Qmult_zero_iff.
    split; intros H; qlin.
  - destruct (Qeq_dec num_cores 0) as [Hc|Hc];
      [now rewrite hardware_checker_ram_channels_raises by now left|].
    destruct (Qeq_dec num_ram_channels 0) as [Hr|Hr];
      [now rewrite hardware_checker_ram_channels_raises by now right|].
    now rewrite (hardware_checker_facts.ram_channels_returns _ _ _ Hc Hr).
  - unfold ofhc.estimate_bottleneck_ram_channels.
    rewrite checked_requirements_outcome. reflexivity.
  - intros Hp Hc. eexists.
    split; [apply ofhc_facts.ram_channels_returns_factored;
            now apply Qpos_nonzero|].
    apply zero_ratio.
  - intros Hp Hc Hr.
    assert (Ht : 0 < num_cores * num_processors)
      by now apply Qmult_lt_0_compat.
    assert (H1 : 0 < num_cores / num_ram_channels) by positive.
    assert (H2 : 0 < num_cores * num_processors / 4) by positive.
    eexists. eexists.
    split; [apply hardware_checker_facts.ram_channels_returns;
            now apply Qpos_nonzero|].
    split; [apply ofhc_facts.ram_channels_returns_factored;
            now apply Qpos_nonzero|].
    rewrite (scored_pass_iff _ _ _ H1), (scored_pass_iff _ _ _ H2).
    split.
    + apply Qdiv_le_iff. exact Hr.
    + split; intros H; qlin.
Qed.

Lemma ram_channels_failure_and_threshold_witness :
  0 < 2 /\ 0 < 10 /\ 0 < 4 /\
  (exists r,
     ofhc.estimate_bottleneck_ram_channels 2 10 0 empty_world
     = (Returned r, empty_world)
     /\ ratio r == 0 /\ mark r = fail_mark)
  /\ exists r1 r2,
       hardware_checker.estimate_bottleneck_ram_channels 10 4 empty_world
       = (Returned r1, empty_world)
       /\ ofhc.estimate_bottleneck_ram_channels 2 10 4 empty_world
          = (Returned r2, empty_world)
       /\ (mark r1 = pass_mark <-> 10 <= 4 * 4)
       /\ (mark r2 = pass_mark <-> 10 * 2 <= 4 * 4).
Proof.
  assert (Hp : 0 < 2) by reflexivity.
  assert (Hc : 0 < 10) by reflexivity.
  assert (Hr : 0 < 4) by reflexivity.
  repeat (split; [assumption|]).
  destruct (ram_channels_failure_and_threshold 2 10 4 empty_world)
    as (_ & _ & _ & _ & _ & H).
  destruct (ram_channels_failure_and_threshold 2 10 0 empty_world)
    as (_ & _ & _ & _ & H0 & _).
  split; [exact (H0 Hp Hc) | exact (H Hp Hc Hr)].
Defined.

(** ** RAM bandwidth *)

(** X6.  The bandwidth estimators raise exactly when the total core count
    is zero and never print.  For positive core counts the threshold lies
    where 7 * speed * channels equals 2500 times the total core count (70 %
    of 8 bytes per transfer against 2 GB/s per core): they pass when
    7 * speed * channels exceeds 2500 * cores by more than one part in
    10^9, and fail when it falls short by more than one part in 10^9.
    (Closer to the threshold the float 0.7 and the rounded products decide:
    the statement leaves the mark open there.) *)
Theorem ram_bandwidth_failure_and_threshold
  (num_processors num_cpu_cores ram_speed_mts num_ram_channels : Q)
  (w : World) :
  (fst (hardware_checker.estimate_bottleneck_ram_bandwidth num_cpu_cores
          ram_speed_mts num_ram_channels w) = Raised ZeroDivisionError
   <-> num_cpu_cores == 0)
  /\ (fst (ofhc.estimate_bottleneck_ram_bandwidth num_processors
             num_cpu_cores ram_speed_mts num_ram_channels w)
      = Raised ZeroDivisionError
      <-> num_processors == 0 \/ num_cpu_cores == 0)
  /\ snd (hardware_checker.estimate_bottleneck_ram_bandwidth num_cpu_cores
            ram_speed_mts num_ram_channels w) = w
  /\ snd (ofhc.estimate_bottleneck_ram_bandwidth num_processors
            num_cpu_cores ram_speed_mts num_ram_channels w) = w
  /\ (0 < num_processors -> 0 < num_cpu_cores ->
      exists r1 r2,
        hardware_checker.estimate_bottleneck_ram_bandwidth num_cpu_cores
          ram_speed_mts num_ram_channels w = (Returned r1, w)
        /\ ofhc.estimate_bottleneck_ram_bandwidth num_processors
             num_cpu_cores ram_speed_mts num_ram_channels w
           = (Returned r2, w)
        /\ (2500 * num_cpu_cores * (1 + (1 # 1000000000))
            <= 7 * (ram_speed_mts * num_ram_channels) ->
            mark r1 = pass_mark)
        /\ (7 * (ram_speed_mts * num_ram_channels)
            <= 2500 * num_cpu_cores * (1 - (1 # 1000000000)) ->
            mark r1 = fail_mark)
        /\ (2500 * (num_processors * num_cpu_cores) * (1 + (1 # 1000000000))
            <= 7 * (ram_speed_mts * num_ram_channels) ->
            mark r2 = pass_mark)
        /\ (7 * (ram_speed_mts * num_ram_channels)
            <= 2500 * (num_processors * num_cpu_cores)
               * (1 - (1 # 1000000000)) ->
            mark r2 = fail_mark)).
Proof.
  unfold hardware_checker.estimate_bottleneck_ram_bandwidth,
    ofhc.estimate_bottleneck_ram_bandwidth.
  split; [|split; [|split; [|split]]].
  - rewrite checked_requirements_raises_iff. split; intros H; lra.
  - rewrite checked_requirements_raises_iff, <- Qmult_zero_iff.
    split; intros H; lra.
  - rewrite checked_requirements_outcome. reflexivity.
  - rewrite checked_requirements_outcome. reflexivity.
  - intros Hp Hc.
    assert (Ht : 0 < num_processors * num_cpu_cores)
      by now apply Qmult_lt_0_compat.
    assert (H1 : 0 < num_cpu_cores * 2) by positive.
    assert (H2 : 0 < num_processors * num_cpu_cores * 2) by positive.
    eexists. eexists.
    split; [apply checked_requirements_returns; now apply Qpos_nonzero|].
    split; [apply checked_requirements_returns; now apply Qpos_nonzero|].
    rewrite (scored_pass_iff _ _ _ H1), (scored_pass_iff _ _ _ H2),
      (scored_fail_iff _ _ _ H1), (scored_fail_iff _ _ _ H2).
    repeat split; intros H; qlin.
Qed.

Lemma ram_bandwidth_failure_and_threshold_witness :
  0 < 2 /\ 0 < 10
  /\ 2500 * 10 * (1 + (1 # 1000000000)) <= 7 * (2133 * 4)
  /\ 7 * (2133 * 4) <= 2500 * (2 * 20) * (1 - (1 # 1000000000))
  /\ (exists r1 r2,
        hardware_checker.estimate_bottleneck_ram_bandwidth 10 2133 4
          empty_world = (Returned r1, empty_world)
        /\ ofhc.estimate_bottleneck_ram_bandwidth 2 10 2133 4 empty_world
           = (Returned r2, empty_world)
        /\ mark r1 = pass_mark)
  /\ (exists r1 r2,
        hardware_checker.estimate_bottleneck_ram_bandwidth 20 2133 4
          empty_world = (Returned r1, empty_world)
        /\ ofhc.estimate_bottleneck_ram_bandwidth 2 20 2133 4 empty_world
           = (Returned r2, empty_world)
        /\ mark r2 = fail_mark).
Proof.
  assert (Hp : 0 < 2) by reflexivity.
  assert (Hc : 0 < 10) by reflexivity.
  assert (Hc' : 0 < 20) by reflexivity.
  assert (Hhi : 2500 * 10 * (1 + (1 # 1000000000)) <= 7 * (2133 * 4))
    by discriminate.
  assert (Hlo : 7 * (2133 * 4)
                <= 2500 * (2 * 20) * (1 - (1 # 1000000000)))
    by discriminate.
  repeat (split; [assumption|]).
  split.
  - destruct (proj2 (proj2 (proj2 (proj2
               (ram_bandwidth_failure_and_threshold 2 10 2133 4
                  empty_world)))) Hp Hc)
      as (r1 & r2 & E1 & E2 & Hpass & _).
    exists r1, r2. split; [exact E1|]. split; [exact E2|]. exact (Hpass Hhi).
  - destruct (proj2 (proj2 (proj2 (proj2
               (ram_bandwidth_failure_and_threshold 2 20 2133 4
                  empty_world)))) Hp Hc')
      as (r1 & r2 & E1 & E2 & _ & _ & _ & Hfail).
    exists r1, r2. split; [exact E1|]. split; [exact E2|]. exact (Hfail Hlo).
Defined.

(** ** CPU core count *)

Lemma hardware_checker_cpu_count_raises (num_cells num_cpu_cores : Q) (w : World) :
  num_cells == 0 \/ num_cpu_cores == 0 ->
  hardware_checker.estimate_bottleneck_cpu_count num_cells num_cpu_cores w
  = (Raised ZeroDivisionError, w).
Proof.
  intros H. unfold hardware_checker.estimate_bottleneck_cpu_count, bind.
  destruct (Qeq_dec num_cpu_cores 0) as [Hc|Hc].
  - now rewrite (truediv_raises _ _ _ Hc).
  - rewrite (truediv_returns _ _ _ Hc).
    destruct H as [H|H]; [|contradiction].
    rewrite truediv_raises; [reflexivity|]. now apply Qdiv_zero_l.
Qed.

Lemma ofhc_cpu_count_raises
  (num_cells num_processors num_cpu_cores : Q) (w : World) :
  num_cells == 0 \/ num_cpu_cores * num_processors == 0 ->
  ofhc.estimate_bottleneck_cpu_count num_cells num_processors num_cpu_cores w
  = (Raised ZeroDivisionError, w).
Proof.
  intros H. unfold ofhc.estimate_bottleneck_cpu_count, bind.
  destruct (Qeq_dec (num_cpu_cores * num_processors) 0) as [Hc|Hc].
  - now rewrite (truediv_raises _ _ _ Hc).
  - rewrite (truediv_returns _ _ _ Hc).
    destruct H as [H|H]; [|contradiction].
    rewrite truediv_raises; [reflexivity|]. now apply Qdiv_zero_l.
Qed.

(** The two cases of the advisory for positive counts: nothing when there
    are at least 50000 cells per core; otherwise one line whose number is the
    rounding of cells * cells / (50000 * cores), a value below the cell
    count. *)
Lemma cap_advisory_cases (num_cells total_cores : Q) :
  0 < num_cells -> 0 < total_cores ->
  (cap_advisory num_cells total_cores = []
   /\ 50000 * total_cores <= num_cells)
  \/ (exists limit,
        cap_advisory num_cells total_cores = [advisory (PyNum.round limit)]
        /\ limit == num_cells * num_cells / (50000 * total_cores)
        /\ limit < num_cells
        /\ num_cells < 50000 * total_cores).
Proof.
  intros Hn Hc.
  assert (Hn' : ~ num_cells == 0) by now apply Qpos_nonzero.
  assert (Hc' : ~ total_cores == 0) by now apply Qpos_nonzero.
  destruct (cap_advisory_emitted num_cells total_cores Hn Hc) as [Hy Hno].
  destruct (Qlt_le_dec (num_cells / total_cores) 50000) as [Hlt|Hge].
  - right. exists (num_cells / (50000 / (num_cells / total_cores))).
    split; [now apply Hy|].
    assert (Hlt' : num_cells < 50000 * total_cores).
    { apply Qnot_le_lt. intros Hle.
      apply (Qlt_not_le _ _ Hlt). apply Qle_shift_div_l; assumption. }
    split; [field; repeat split; nonzero|].
    split; [|exact Hlt'].
    assert (Hm : 1 < 50000 / (num_cells / total_cores)).
    { apply Qlt_shift_div_l; [now apply Qdiv_pos|]. now rewrite Qmult_1_l. }
    apply Qlt_shift_div_r; [apply Qlt_trans with 1; [reflexivity|exact Hm]|].
    setoid_replace num_cells with (num_cells * 1) at 1 by ring.
    apply Qmult_lt_l; assumption.
  - left. split.
    + apply Hno. now apply Qle_not_lt.
    + assert (E : num_cells / total_cores * total_cores == num_cells)
        by (field; exact Hc').
      rewrite <- E.
      apply Qmult_le_compat_r; [exact Hge | now apply Qlt_le_weak].
Qed.

(** X7.  The CPU-core-count estimator of [hardware_checker.py] raises exactly
    when the cell count or the core count is zero, and has then printed
    nothing.  For positive counts it passes exactly when there are at most
    100000 cells per core.  Whenever it prints the advisory, the result has a
    ratio above 2 and the pass mark, and the line reads "Do not use all
    cores for computing. Limit the simulation to n" with n a nearest integer
    (within a half, and one part in 10^9 for the rounding of binary64) to
    cells * cells / (50000 * cores), a value below the cell count. *)
Theorem cpu_count_failure_threshold_and_advisory
  (num_cells num_cpu_cores : Q) (w : World) :
  (fst (hardware_checker.estimate_bottleneck_cpu_count num_cells
          num_cpu_cores w) = Raised ZeroDivisionError
   <-> num_cells == 0 \/ num_cpu_cores == 0)
  /\ (num_cells == 0 \/ num_cpu_cores == 0 ->
      snd (hardware_checker.estimate_bottleneck_cpu_count num_cells
             num_cpu_cores w) = w)
  /\ (0 < num_cells -> 0 < num_cpu_cores ->
      exists r out,
        hardware_checker.estimate_bottleneck_cpu_count num_cells
          num_cpu_cores w = (Returned r, emit w out)
        /\ (mark r = pass_mark <-> num_cells <= 100000 * num_cpu_cores)
        /\ (out = []
            \/ exists (limit : Q) (n : Z),
                 out = [("Do not use all cores for computing. Limit the simulation to "
                           ++ PyStr.of_Z n)%string]
                 /\ limit == num_cells * num_cells / (50000 * num_cpu_cores)
                 /\ limit - (1 # 2) - limit * (1 # 1000000000) <= inject_Z n
                 /\ inject_Z n <= limit + (1 # 2) + limit * (1 # 1000000000)
                 /\ limit < num_cells
                 /\ 2 < ratio r
                 /\ mark r = pass_mark)).
Proof.
  split; [|split].
  - split.
    + intros H.
      destruct (Qeq_dec num_cells 0) as [Hn|Hn]; [now left|].
      destruct (Qeq_dec num_cpu_cores 0) as [Hc|Hc]; [now right|].
      rewrite (hardware_checker_facts.cpu_count_returns _ _ _ Hn Hc) in H.
      discriminate H.
    + intros H. now rewrite hardware_checker_cpu_count_raises.
  - intros H. now rewrite hardware_checker_cpu_count_raises.
  - intros Hn Hc.
    assert (Hd : 0 < num_cells / 100000) by positive.
    exists (scored "CPU Cores" num_cpu_cores (num_cells / 100000)),
      (cap_advisory num_cells num_cpu_cores).
    split; [apply hardware_checker_facts.cpu_count_returns;
            now apply Qpos_nonzero|].
    rewrite (scored_pass_iff _ _ _ Hd).
    split; [split; intros H; qlin|].
    destruct (cap_advisory_cases num_cells num_cpu_cores Hn Hc)
      as [[E _]|(limit & E & Hl & Hlt & Hcap)]; [now left|].
    right. exists limit, (PyNum.round limit).
    split; [now rewrite E, advisory_text|]. split; [exact Hl|].
    assert (Hl0 : 0 <= limit).
    { rewrite Hl. apply Qlt_le_weak. positive. }
    split; [now apply round_near|]. split; [now apply round_near|].
    split; [exact Hlt|].
    split.
    + cbn [ratio scored]. apply Qdiv_gt_iff; [exact Hd|]. qlin.
    + apply (scored_pass_iff _ _ _ Hd). qlin.
Qed.

Lemma cpu_count_failure_threshold_and_advisory_witness :
  (0 == 0 \/ 20 == 0) /\ 0 < 100000 /\ 0 < 20
  /\ snd (hardware_checker.estimate_bottleneck_cpu_count 0 20 empty_world)
     = empty_world
  /\ exists r out,
       hardware_checker.estimate_bottleneck_cpu_count 100000 20 empty_world
       = (Returned r, emit empty_world out)
       /\ (mark r = pass_mark <-> 100000 <= 100000 * 20)
       /\ (out = []
           \/ exists (limit : Q) (n : Z),
                out = [("Do not use all cores for computing. Limit the simulation to "
                          ++ PyStr.of_Z n)%string]
                /\ limit == 100000 * 100000 / (50000 * 20)
                /\ limit - (1 # 2) - limit * (1 # 1000000000) <= inject_Z n
                /\ inject_Z n <= limit + (1 # 2) + limit * (1 # 1000000000)
                /\ limit < 100000
                /\ 2 < ratio r
                /\ mark r = pass_mark).
Proof.
  assert (Hz : 0 == 0 \/ 20 == 0) by (left; reflexivity).
  assert (Hn : 0 < 100000) by reflexivity.
  assert (Hc : 0 < 20) by reflexivity.
  repeat (split; [assumption|]).
  split.
  - exact (proj1 (proj2 (cpu_count_failure_threshold_and_advisory 0 20
                           empty_world)) Hz).
  - exact (proj2 (proj2 (cpu_count_failure_threshold_and_advisory 100000 20
                           empty_world)) Hn Hc).
Defined.

(** ** The whole run: when it fails and what it prints *)





(** The seven titles of a report. *)
Lemma results_titles
  (num_cells ram_capacity_gb num_ram_channels ram_speed_mts num_processors
     num_cpu_cores cpu_speed_ghz cpu_l3_cache_capacity_mb gpu_vram_gb : Q) :
  map title
    (hardware_checker_results num_cells ram_capacity_gb num_ram_channels
       ram_speed_mts num_cpu_cores cpu_speed_ghz cpu_l3_cache_capacity_mb
       gpu_vram_gb)
  = [ "RAM Capacity (GB)"; "RAM Channels"; "RAM Bandwidth (GB/s)";
      "CPU Cores"; "CPU Clock-Speed (GHZ)"; "CPU L3 Cache (MB)";
      "Virtual RAM (GB)" ]
  /\ map title
       (ofhc_results num_cells ram_capacity_gb num_ram_channels ram_speed_mts
          num_processors num_cpu_cores cpu_speed_ghz cpu_l3_cache_capacity_mb
          gpu_vram_gb)
     = [ "RAM Capacity (GB)"; "RAM Channels"; "RAM Bandwidth (GB/s)";
         "CPU Cores"; "CPU Clock-Speed (GHZ)"; "CPU L3 Cache (MB)";
         "Virtual RAM (GB)" ].
Proof. split; reflexivity. Qed.





(** ** The percentage and the mark of a row *)

Lemma round_floor_cases (x : Q) :
  PyNum.round x = Qfloor x \/ PyNum.round x = (Qfloor x + 1)%Z.
Proof.
  unfold PyNum.round.
  destruct (Qcompare (x - inject_Z (Qfloor x)) (1 # 2)); auto.
  destruct (Z.even (Qfloor x)); auto.
Qed.

(** Rounding does not go below an integer that the number has reached. *)
Lemma round_lower (k : Z) (x : Q) : inject_Z k <= x -> (k <= PyNum.round x)%Z.
Proof.
  intros H.
  assert (Hf : (k <= Qfloor x)%Z).
  { rewrite <- (Qfloor_Z k). now apply Qfloor_resp_le. }
  destruct (round_floor_cases x) as [E|E]; rewrite E; lia.
Qed.

(** From a half below an odd integer on, rounding reaches the integer up to
    which the number has not yet come. *)
Lemma round_upper_half (f : Z) (x : Q) :
  Z.even f = false ->
  inject_Z f + (1 # 2) <= x -> x < inject_Z f + 1 ->
  PyNum.round x = (f + 1)%Z.
Proof.
  intros Hodd Hlo Hhi.
  assert (Hf : Qfloor x = f).
  { assert (H1 := Qfloor_le x). assert (H2 := Qlt_floor x).
    rewrite inject_Z_plus in H2. change (inject_Z 1) with 1 in H2.
    assert (Ha : (Qfloor x < f + 1)%Z).
    { rewrite Zlt_Qlt, inject_Z_plus. change (inject_Z 1) with 1. lra. }
    assert (Hb : (f < Qfloor x + 1)%Z).
    { rewrite Zlt_Qlt, inject_Z_plus. change (inject_Z 1) with 1. lra. }
    lia. }
  unfold PyNum.round. rewrite Hf.
  destruct (Qcompare (x - inject_Z f) (1 # 2)) eqn:E.
  - now rewrite Hodd.
  - apply Qlt_alt in E. lra.
  - reflexivity.
Qed.

(** X11.  The percentage of a row is the text of an integer followed by
    " %", that integer being 100 times the ratio rounded to a nearest
    integer (within a half, and one part in 10^9 for the rounding of
    binary64), while the mark compares the ratio itself with 1.  So a pass
    mark always comes with at least 100 %, and a percentage of 99 or less
    with the fail mark; but a ratio from 0.995 up to 1 is shown as 100 %
    with the fail mark. *)
Theorem percentage_and_mark (title : string) (numerator denominator : Q)
  (w : World) :
  ~ denominator == 0 ->
  exists (r : result) (percent : Z),
    checked_requirements title numerator denominator w = (Returned r, w)
    /\ ratio_fmt r = (PyStr.of_Z percent ++ " %")%string
    /\ numerator / denominator * 100 - (1 # 2)
       - Qabs (numerator / denominator * 100) * (1 # 1000000000)
       <= inject_Z percent
    /\ inject_Z percent
       <= numerator / denominator * 100 + (1 # 2)
          + Qabs (numerator / denominator * 100) * (1 # 1000000000)
    /\ (mark r = pass_mark -> (100 <= percent)%Z)
    /\ ((percent <= 99)%Z -> mark r = fail_mark)
    /\ ((995 # 1000) <= numerator / denominator ->
        numerator / denominator < 1 ->
        percent = 100%Z /\ mark r = fail_mark).
Proof.
  intros Hd.
  exists (scored title numerator denominator),
    (PyNum.round (numerator / denominator * 100)).
  split; [now apply checked_requirements_returns|].
  split; [reflexivity|].
  split; [apply round_near_abs|]. split; [apply round_near_abs|].
  assert (Hpass : mark (scored title numerator denominator) = pass_mark ->
                  (100 <= PyNum.round (numerator / denominator * 100))%Z).
  { intros H. apply scored_mark_pass in H.
    apply round_lower. change (inject_Z 100) with 100. lra. }
  split; [exact Hpass|]. split.
  - intros Hp. apply scored_mark_fail.
    apply Qnot_le_lt. intros Hle.
    apply (proj2 (scored_mark_pass title numerator denominator)) in Hle.
    apply Hpass in Hle. lia.
  - intros Hlo Hhi. split.
    + apply (round_upper_half 99); [reflexivity | |];
        change (inject_Z 99) with 99; lra.
    + now apply scored_mark_fail.
Qed.

Lemma percentage_and_mark_witness :
  ~ 1000 == 0 /\ (995 # 1000) <= 996 / 1000 /\ 996 / 1000 < 1 /\
  exists (r : result) (percent : Z),
    checked_requirements "CPU Cores" 996 1000 empty_world
    = (Returned r, empty_world)
    /\ ratio_fmt r = (PyStr.of_Z percent ++ " %")%string
    /\ percent = 100%Z /\ mark r = fail_mark.
Proof.
  assert (Hd : ~ 1000 == 0) by discriminate.
  assert (Hlo : (995 # 1000) <= 996 / 1000) by discriminate.
  assert (Hhi : 996 / 1000 < 1) by reflexivity.
  repeat (split; [assumption|]).
  destruct (percentage_and_mark "CPU Cores" 996 1000 empty_world Hd)
    as (r & percent & Hrun & Hfmt & _ & _ & _ & _ & Hgap).
  exists r, percent.
  split; [exact Hrun|]. split; [exact Hfmt|]. exact (Hgap Hlo Hhi).
Defined.

(** ** The number of decimals [fmt] shows *)

Lemma py_len_string_of_uint (d : Decimal.uint) :
  PyStr.py_len (NilEmpty.string_of_uint d) = Decimal.nb_digits d.
Proof. induction d; cbn; congruence. Qed.

Lemma short_uint_below_100 (d : Decimal.uint) :
  (Decimal.nb_digits d <= 2)%nat -> (Pos.of_uint d < 100)%N.
Proof.
  intros H.
  destruct d as [|d|d|d|d|d|d|d|d|d|d]; try reflexivity;
    (destruct d as [|d|d|d|d|d|d|d|d|d|d]; try reflexivity;
     (destruct d; [reflexivity|cbn in H; lia ..])).
Qed.

Lemma of_Z_len_from_100 (n : Z) :
  (100 <= n)%Z -> (3 <= PyStr.py_len (PyStr.of_Z n))%nat.
Proof.
  intros H. destruct n as [|p|p]; try lia.
  unfold PyStr.of_Z. cbn [Z.to_int NilZero.string_of_int].
  unfold NilZero.string_of_uint.
  assert (Hn := DecimalPos.Unsigned.to_uint_nonnil p).
  assert (E : PyStr.py_len (NilEmpty.string_of_uint (Pos.to_uint p))
              = Decimal.nb_digits (Pos.to_uint p))
    by apply py_len_string_of_uint.
  destruct (Pos.to_uint p) eqn:Ed; [contradiction|rewrite E ..];
    (apply Nat.nlt_ge; intros Hlt;
     assert (Hs : (Pos.of_uint (Pos.to_uint p) < 100)%N)
       by (apply short_uint_below_100; rewrite Ed; lia);
     rewrite DecimalPos.Unsigned.of_to in Hs; lia).
Qed.

Lemma of_Z_len_below_100 (n : Z) :
  (0 <= n < 100)%Z ->
  PyStr.py_len (PyStr.of_Z n) = if (n <? 10)%Z then 1%nat else 2%nat.
Proof.
  intros H. rewrite <- (Z2Nat.id n) by lia.
  assert (Hk : (Z.to_nat n < 100)%nat) by lia.
  generalize dependent (Z.to_nat n). clear n H. intros k Hk.
  do 100 (destruct k as [|k]; [reflexivity|]). lia.
Qed.

Lemma int_abs_floor (val : Q) :
  PyNum.int (PyNum.abs val) = Qfloor (Qabs val)
  /\ (0 <= Qfloor (Qabs val))%Z.
Proof.
  assert (H := Qabs_nonneg val). split.
  - unfold PyNum.int, PyNum.abs.
    apply Qle_bool_iff in H. now rewrite H.
  - rewrite <- (Qfloor_Z 0). now apply Qfloor_resp_le.
Qed.

Lemma floor_below (k : Z) (x : Q) : x < inject_Z k -> (Qfloor x < k)%Z.
Proof.
  intros H. rewrite Zlt_Qlt.
  apply Qle_lt_trans with x; [apply Qfloor_le | exact H].
Qed.

Lemma floor_from (k : Z) (x : Q) : inject_Z k <= x -> (k <= Qfloor x)%Z.
Proof.
  intros H. rewrite <- (Qfloor_Z k). now apply Qfloor_resp_le.
Qed.

(** X12.  [fmt] shows zero as a bare "0", two decimals for magnitudes below 10,
    one decimal from 10 up to 100, and none from 100 on. *)
Theorem fmt_decimals (val : Q) :
  (val == 0 -> fmt val = "0")
  /\ (~ val == 0 -> Qabs val < 10 -> fmt val = PyStr.format_comma_f val 2)
  /\ (10 <= Qabs val -> Qabs val < 100 ->
      fmt val = PyStr.format_comma_f val 1)
  /\ (100 <= Qabs val -> fmt val = PyStr.format_comma_f val 0).
Proof.
  destruct (int_abs_floor val) as [Ei Hf0].
  assert (Hnz : 10 <= Qabs val -> PyNum.is_zero val = false).
  { intros H. apply is_zero_false_iff. intros E.
    rewrite E in H.
    assert (Hc : Qabs 0 < 10) by reflexivity.
    exact (Qlt_not_le _ _ Hc H). }
  unfold fmt. rewrite Ei.
  split; [|split; [|split]].
  - intros E. apply is_zero_true_iff in E. now rewrite E.
  - intros Hv Hlt. apply is_zero_false_iff in Hv. rewrite Hv.
    assert (Hb : (Qfloor (Qabs val) < 10)%Z) by now apply floor_below.
    rewrite of_Z_len_below_100 by lia.
    destruct (Z.ltb_spec (Qfloor (Qabs val)) 10); [reflexivity|lia].
  - intros Hlo Hhi. rewrite (Hnz Hlo).
    assert (Ha : (10 <= Qfloor (Qabs val))%Z) by now apply floor_from.
    assert (Hb : (Qfloor (Qabs val) < 100)%Z) by now apply floor_below.
    rewrite of_Z_len_below_100 by lia.
    destruct (Z.ltb_spec (Qfloor (Qabs val)) 10); [lia|reflexivity].
  - intros Hlo.
    assert (H10 : 10 <= Qabs val)
      by (apply Qle_trans with 100; [discriminate|exact Hlo]).
    rewrite (Hnz H10).
    assert (Ha : (100 <= Qfloor (Qabs val))%Z) by now apply floor_from.
    apply of_Z_len_from_100 in Ha.
    replace (Z.max (3 - Z.of_nat (PyStr.py_len
                                    (PyStr.of_Z (Qfloor (Qabs val))))) 0)
      with 0%Z by lia.
    reflexivity.
Qed.

Lemma fmt_decimals_witness :
  ~ (5 # 6) == 0 /\ Qabs (5 # 6) < 10
  /\ 10 <= Qabs (6048 # 100) /\ Qabs (6048 # 100) < 100
  /\ 100 <= Qabs 1234567
  /\ fmt (5 # 6) = PyStr.format_comma_f (5 # 6) 2
  /\ fmt (6048 # 100) = PyStr.format_comma_f (6048 # 100) 1
  /\ fmt 1234567 = PyStr.format_comma_f 1234567 0.
Proof.
  assert (H1 : ~ (5 # 6) == 0) by discriminate.
  assert (H2 : Qabs (5 # 6) < 10) by reflexivity.
  assert (H3 : 10 <= Qabs (6048 # 100)) by discriminate.
  assert (H4 : Qabs (6048 # 100) < 100) by reflexivity.
  assert (H5 : 100 <= Qabs 1234567) by discriminate.
  repeat (split; [assumption|]).
  split; [exact (proj1 (proj2 (fmt_decimals (5 # 6))) H1 H2)|].
  split; [exact (proj1 (proj2 (proj2 (fmt_decimals (6048 # 100)))) H3 H4)|].
  exact (proj2 (proj2 (proj2 (fmt_decimals 1234567))) H5).
Defined.

(** ** [ofhc.py] against [hardware_checker.py] on the total core count *)










(** ** More hardware *)

Lemma Qdiv_le_monotone (n n' d : Q) : 0 < d -> n <= n' -> n / d <= n' / d.
Proof.
  intros Hd H. unfold Qdiv. apply Qmult_le_compat_r; [exact H|].
  apply Qlt_le_weak. now apply Qinv_lt_0_compat.
Qed.

(** X15.  In [hardware_checker.py], with the cell and core counts fixed, raising
    any of the capacities (RAM capacity, channel count, RAM speed, clock
    speed, L3 cache, GPU memory) lowers the ratio of no resource. *)
Theorem more_capacity_never_lowers_a_ratio
  (num_cells num_cpu_cores : Q)
  (ram_capacity_gb num_ram_channels ram_speed_mts cpu_speed_ghz
     cpu_l3_cache_capacity_mb gpu_vram_gb : Q)
  (ram_capacity_gb' num_ram_channels' ram_speed_mts' cpu_speed_ghz'
     cpu_l3_cache_capacity_mb' gpu_vram_gb' : Q) (w : World) :
  0 < num_cells -> 0 < num_cpu_cores ->
  0 < num_ram_channels -> 0 <= ram_speed_mts ->
  ram_capacity_gb <= ram_capacity_gb' ->
  num_ram_channels <= num_ram_channels' ->
  ram_speed_mts <= ram_speed_mts' ->
  cpu_speed_ghz <= cpu_speed_ghz' ->
  cpu_l3_cache_capacity_mb <= cpu_l3_cache_capacity_mb' ->
  gpu_vram_gb <= gpu_vram_gb' ->
  exists before after,
    value_of
      (hardware_checker.functions num_cells ram_capacity_gb num_ram_channels
         ram_speed_mts num_cpu_cores cpu_speed_ghz cpu_l3_cache_capacity_mb
         gpu_vram_gb) w = Some before
    /\ value_of
         (hardware_checker.functions num_cells ram_capacity_gb'
            num_ram_channels' ram_speed_mts' num_cpu_cores cpu_speed_ghz'
            cpu_l3_cache_capacity_mb' gpu_vram_gb') w = Some after
    /\ Forall2 (fun b a => title a = title b /\ ratio b <= ratio a)
         before after.
Proof.
  intros Hn Hc Hr Hs H1 H2 H3 H4 H5 H6.
  assert (Hr' : 0 < num_ram_channels')
    by (apply Qlt_le_trans with num_ram_channels; assumption).
  assert (Hsc : ram_speed_mts * num_ram_channels
                <= ram_speed_mts' * num_ram_channels').
  { apply Qmult_le_compat_nonneg; split;
      [exact Hs | exact H3 | now apply Qlt_le_weak | exact H2]. }
  eexists. eexists. unfold value_of.
  rewrite !hardware_checker_facts.functions_returns
    by now apply Qpos_nonzero.
  cbn [fst]. split; [reflexivity|]. split; [reflexivity|].
  unfold hardware_checker_results.
  repeat (apply Forall2_cons; [split; [reflexivity|]|]);
    [..|apply Forall2_nil]; cbn [ratio scored].
  - apply Qdiv_le_monotone; [positive | exact H1].
  - apply Qdiv_le_antitone; [discriminate | positive |].
    apply Qdiv_le_antitone; [now apply Qlt_le_weak | exact Hr | exact H2].
  - apply Qdiv_le_monotone; [positive | qlin].
  - apply Qle_refl.
  - apply Qdiv_le_monotone; [reflexivity | exact H4].
  - apply Qdiv_le_monotone; [positive | exact H5].
  - apply Qdiv_le_monotone; [positive | exact H6].
Qed.

Lemma more_capacity_never_lowers_a_ratio_witness :
  0 < 10000000 /\ 0 < 20 /\ 0 < 4 /\ 0 <= 2133 /\ 64 <= 128 /\ 4 <= 8
  /\ 2133 <= 2700 /\ 2 <= 3 /\ 25 <= 64 /\ 0 <= 8
  /\ exists before after,
       value_of (hardware_checker.functions 10000000 64 4 2133 20 2 25 0)
         empty_world = Some before
       /\ value_of (hardware_checker.functions 10000000 128 8 2700 20 3 64 8)
            empty_world = Some after
       /\ Forall2 (fun b a => title a = title b /\ ratio b <= ratio a)
            before after.
Proof.
  assert (Hn : 0 < 10000000) by reflexivity.
  assert (Hc : 0 < 20) by reflexivity.
  assert (Hr : 0 < 4) by reflexivity.
  assert (Hs : 0 <= 2133) by discriminate.
  assert (H1 : 64 <= 128) by discriminate.
  assert (H2 : 4 <= 8) by discriminate.
  assert (H3 : 2133 <= 2700) by discriminate.
  assert (H4 : 2 <= 3) by discriminate.
  assert (H5 : 25 <= 64) by discriminate.
  assert (H6 : 0 <= 8) by discriminate.
  repeat (split; [assumption|]).
  exact (more_capacity_never_lowers_a_ratio 10000000 20 64 4 2133 2 25 0
           128 8 2700 3 64 8 empty_world Hn Hc Hr Hs H1 H2 H3 H4 H5 H6).
Defined.

(** X16.  In [hardware_checker.py], with everything else fixed, more cores raise
    the ratio of the CPU cores and lower, or leave as they are, the ratios of
    the RAM channels, the RAM bandwidth and the L3 cache; the other three
    ratios do not depend on the core count. *)
Theorem more_cores_trade_off
  (num_cells ram_capacity_gb num_ram_channels ram_speed_mts num_cpu_cores
     num_cpu_cores' cpu_speed_ghz cpu_l3_cache_capacity_mb gpu_vram_gb : Q)
  (w : World) :
  0 < num_cells -> 0 < num_ram_channels -> 0 <= ram_speed_mts ->
  0 <= cpu_l3_cache_capacity_mb ->
  0 < num_cpu_cores -> num_cpu_cores <= num_cpu_cores' ->
  exists before after,
    value_of
      (hardware_checker.functions num_cells ram_capacity_gb num_ram_channels
         ram_speed_mts num_cpu_cores cpu_speed_ghz cpu_l3_cache_capacity_mb
         gpu_vram_gb) w = Some before
    /\ value_of
         (hardware_checker.functions num_cells ram_capacity_gb
            num_ram_channels ram_speed_mts num_cpu_cores' cpu_speed_ghz
            cpu_l3_cache_capacity_mb gpu_vram_gb) w = Some after
    /\ Forall2
         (fun b a =>
            title a = title b
            /\ (title b = "CPU Cores" -> ratio b <= ratio a)
            /\ (title b <> "CPU Cores" -> ratio a <= ratio b)
            /\ (title b = "RAM Capacity (GB)"
                \/ title b = "CPU Clock-Speed (GHZ)"
                \/ title b = "Virtual RAM (GB)" -> a = b))
         before after.
Proof.
  intros Hn Hr Hs Hl Hc Hcc.
  assert (Hc' : 0 < num_cpu_cores')
    by (apply Qlt_le_trans with num_cpu_cores; assumption).
  eexists. eexists. unfold value_of.
  rewrite !hardware_checker_facts.functions_returns
    by now apply Qpos_nonzero.
  cbn [fst]. split; [reflexivity|]. split; [reflexivity|].
  unfold hardware_checker_results.
  repeat (apply Forall2_cons; [split; [reflexivity|]|]);
    [..|apply Forall2_nil]; cbn [title ratio scored];
    (split; [intros E; try discriminate E|
             split; [intros E; try (now contradiction E)|
                     intros [E|[E|E]]; try discriminate E;
                     try reflexivity]]);
    try apply Qle_refl.
  - apply Qdiv_le_antitone; [discriminate | positive |].
    apply Qdiv_le_monotone; assumption.
  - apply Qdiv_le_antitone; [positive | positive | lra].
  - apply Qdiv_le_monotone; [positive | exact Hcc].
  - apply Qdiv_le_antitone; [exact Hl | positive | lra].
Qed.

Lemma more_cores_trade_off_witness :
  0 < 10000000 /\ 0 < 4 /\ 0 <= 2700 /\ 0 <= 64 /\ 0 < 20 /\ 20 <= 40
  /\ exists before after,
       value_of (hardware_checker.functions 10000000 64 4 2700 20 2 64 0)
         empty_world = Some before
       /\ value_of (hardware_checker.functions 10000000 64 4 2700 40 2 64 0)
            empty_world = Some after
       /\ Forall2
            (fun b a =>
               title a = title b
               /\ (title b = "CPU Cores" -> ratio b <= ratio a)
               /\ (title b <> "CPU Cores" -> ratio a <= ratio b)
               /\ (title b = "RAM Capacity (GB)"
                   \/ title b = "CPU Clock-Speed (GHZ)"
                   \/ title b = "Virtual RAM (GB)" -> a = b))
            before after.
Proof.
  assert (Hn : 0 < 10000000) by reflexivity.
  assert (Hr : 0 < 4) by reflexivity.
  assert (Hs : 0 <= 2700) by discriminate.
  assert (Hl : 0 <= 64) by discriminate.
  assert (Hc : 0 < 20) by reflexivity.
  assert (Hcc : 20 <= 40) by discriminate.
  repeat (split; [assumption|]).
  exact (more_cores_trade_off 10000000 64 4 2700 20 40 2 64 0 empty_world
           Hn Hr Hs Hl Hc Hcc).
Defined.

(** ** The storage advisory *)

(** X17.  [estimate_storage_requirements] raises [ZeroDivisionError] exactly when
    the write speed is zero, and has then printed nothing.  Otherwise it
    returns after printing one line that shows the space, cells / 1000000,
    and a time which multiplied by the write speed gives that space.  The
    storage capacity it is given has no influence on either. *)
Theorem storage_advisory_outcome
  (float_str : Q -> string)
  (num_cells write_speed_gbs actual_storage_capacity_gb : Q) (w : World) :
  (fst (estimate_storage_requirements float_str num_cells write_speed_gbs
          actual_storage_capacity_gb w) = Raised ZeroDivisionError
   <-> write_speed_gbs == 0)
  /\ (write_speed_gbs == 0 ->
      snd (estimate_storage_requirements float_str num_cells write_speed_gbs
             actual_storage_capacity_gb w) = w)
  /\ (~ write_speed_gbs == 0 ->
      exists time space,
        (forall capacity,
           estimate_storage_requirements float_str num_cells write_speed_gbs
             capacity w
           = (Returned tt,
              emit w
                [("Each time step will use approximately "
                    ++ float_str time ++ " seconds to write and "
                    ++ float_str space ++ " gigabytes to save")%string]))
        /\ space = num_cells / 1000000
        /\ time * write_speed_gbs == space).
Proof.
  unfold estimate_storage_requirements, bind.
  split; [|split].
  - split; intros H.
    + destruct (Qeq_dec write_speed_gbs 0) as [E|E]; [exact E|].
      rewrite (truediv_returns _ _ _ E) in H. discriminate H.
    + now rewrite (truediv_raises _ _ _ H).
  - intros H. now rewrite (truediv_raises _ _ _ H).
  - intros H.
    exists (num_cells / 1000000 / write_speed_gbs), (num_cells / 1000000).
    split; [|split].
    + intros capacity. now rewrite (truediv_returns _ _ _ H).
    + reflexivity.
    + field. exact H.
Qed.

Lemma storage_advisory_outcome_witness :
  0 == 0 /\ ~ 2 == 0
  /\ snd (estimate_storage_requirements (fun _ => "") 10000000 0 500
            empty_world) = empty_world
  /\ exists time space,
       (forall capacity,
          estimate_storage_requirements (fun _ => "") 10000000 2 capacity
            empty_world
          = (Returned tt,
             emit empty_world
               [("Each time step will use approximately "
                   ++ "" ++ " seconds to write and "
                   ++ "" ++ " gigabytes to save")%string]))
       /\ space = 10000000 / 1000000
       /\ time * 2 == space.
Proof.
  assert (Hz : 0 == 0) by reflexivity.
  assert (Hs : ~ 2 == 0) by discriminate.
  split; [exact Hz|]. split; [exact Hs|].
  split.
  - exact (proj1 (proj2 (storage_advisory_outcome (fun _ => "") 10000000 0
                           500 empty_world)) Hz).
  - exact (proj2 (proj2 (storage_advisory_outcome (fun _ => "") 10000000 2
                           500 empty_world)) Hs).
Defined.

(** ** The CPU core count in [ofhc.py] *)

(** X8.  The CPU-core-count estimator of [ofhc.py] raises exactly when the cell
    count, the processor count or the core count per processor is zero, and
    has then printed nothing.  For positive counts it passes exactly when
    there are at most 100000 cells per core of the whole machine.  Whenever
    it prints the advisory, the result has a ratio above 2 and the pass
    mark, and the line reads "Do not use all cores for computing. Limit the
    simulation to n" with n a nearest integer (within a half, and one part
    in 10^9 for the rounding of binary64) to
    cells * cells / (50000 * cores * processors), a value below the cell
    count. *)
Theorem ofhc_cpu_count_failure_threshold_and_advisory
  (num_cells num_processors num_cpu_cores : Q) (w : World) :
  (fst (ofhc.estimate_bottleneck_cpu_count num_cells num_processors
          num_cpu_cores w) = Raised ZeroDivisionError
   <-> num_cells == 0 \/ num_processors == 0 \/ num_cpu_cores == 0)
  /\ (num_cells == 0 \/ num_processors == 0 \/ num_cpu_cores == 0 ->
      snd (ofhc.estimate_bottleneck_cpu_count num_cells num_processors
             num_cpu_cores w) = w)
  /\ (0 < num_cells -> 0 < num_processors -> 0 < num_cpu_cores ->
      exists r out,
        ofhc.estimate_bottleneck_cpu_count num_cells num_processors
          num_cpu_cores w = (Returned r, emit w out)
        /\ (mark r = pass_mark
            <-> num_cells <= 100000 * (num_cpu_cores * num_processors))
        /\ (out = []
            \/ exists (limit : Q) (n : Z),
                 out = [("Do not use all cores for computing. Limit the simulation to "
                           ++ PyStr.of_Z n)%string]
                 /\ limit
                    == num_cells * num_cells
                       / (50000 * (num_cpu_cores * num_processors))
                 /\ limit - (1 # 2) - limit * (1 # 1000000000) <= inject_Z n
                 /\ inject_Z n <= limit + (1 # 2) + limit * (1 # 1000000000)
                 /\ limit < num_cells
                 /\ 2 < ratio r
                 /\ mark r = pass_mark)).
Proof.
  assert (Hraise : num_cells == 0 \/ num_processors == 0 \/ num_cpu_cores == 0
                   -> ofhc.estimate_bottleneck_cpu_count num_cells
                        num_processors num_cpu_cores w
                      = (Raised ZeroDivisionError, w)).
  { intros H. apply ofhc_cpu_count_raises.
    rewrite Qmult_zero_iff. tauto. }
  split; [|split].
  - split.
    + intros H.
      destruct (Qeq_dec num_cells 0) as [Hn|Hn]; [now left|].
      destruct (Qeq_dec num_processors 0) as [Hp|Hp]; [now right; left|].
      destruct (Qeq_dec num_cpu_cores 0) as [Hc|Hc]; [now right; right|].
      rewrite (ofhc_facts.cpu_count_returns_factored _ _ _ _ Hn Hp Hc) in H.
      discriminate H.
    + intros H. now rewrite Hraise.
  - intros H. now rewrite Hraise.
  - intros Hn Hp Hc.
    assert (Ht : 0 < num_cpu_cores * num_processors)
      by now apply Qmult_lt_0_compat.
    assert (Hd : 0 < num_cells / 100000) by positive.
    exists (scored "CPU Cores" (num_cpu_cores * num_processors)
              (num_cells / 100000)),
      (cap_advisory num_cells (num_cpu_cores * num_processors)).
    split; [apply ofhc_facts.cpu_count_returns_factored;
            now apply Qpos_nonzero|].
    rewrite (scored_pass_iff _ _ _ Hd).
    split; [split; intros H; qlin|].
    destruct (cap_advisory_cases num_cells (num_cpu_cores * num_processors)
                Hn Ht)
      as [[E _]|(limit & E & Hl & Hlt & Hcap)]; [now left|].
    right. exists limit, (PyNum.round limit).
    split; [now rewrite E, advisory_text|]. split; [exact Hl|].
    assert (Hl0 : 0 <= limit).
    { rewrite Hl. apply Qlt_le_weak. positive. }
    split; [now apply round_near|]. split; [now apply round_near|].
    split; [exact Hlt|].
    split.
    + cbn [ratio scored]. apply Qdiv_gt_iff; [exact Hd|]. qlin.
    + apply (scored_pass_iff _ _ _ Hd). qlin.
Qed.

Lemma ofhc_cpu_count_failure_threshold_and_advisory_witness :
  (100000 == 0 \/ 0 == 0 \/ 10 == 0) /\ 0 < 100000 /\ 0 < 2 /\ 0 < 10
  /\ snd (ofhc.estimate_bottleneck_cpu_count 100000 0 10 empty_world)
     = empty_world
  /\ exists r out,
       ofhc.estimate_bottleneck_cpu_count 100000 2 10 empty_world
       = (Returned r, emit empty_world out)
       /\ (mark r = pass_mark <-> 100000 <= 100000 * (10 * 2))
       /\ (out = []
           \/ exists (limit : Q) (n : Z),
                out = [("Do not use all cores for computing. Limit the simulation to "
                          ++ PyStr.of_Z n)%string]
                /\ limit == 100000 * 100000 / (50000 * (10 * 2))
                /\ limit - (1 # 2) - limit * (1 # 1000000000) <= inject_Z n
                /\ inject_Z n <= limit + (1 # 2) + limit * (1 # 1000000000)
                /\ limit < 100000
                /\ 2 < ratio r
                /\ mark r = pass_mark).
Proof.
  assert (Hz : 100000 == 0 \/ 0 == 0 \/ 10 == 0)
    by (right; left; reflexivity).
  assert (Hn : 0 < 100000) by reflexivity.
  assert (Hp : 0 < 2) by reflexivity.
  assert (Hc : 0 < 10) by reflexivity.
  repeat (split; [assumption|]).
  split.
  - exact (proj1 (proj2 (ofhc_cpu_count_failure_threshold_and_advisory
                           100000 0 10 empty_world)) Hz).
  - exact (proj2 (proj2 (ofhc_cpu_count_failure_threshold_and_advisory
                           100000 2 10 empty_world)) Hn Hp Hc).
Defined.

(** ** The width of a row *)

Lemma py_len_app (a b : string) :
  PyStr.py_len (a ++ b) = (PyStr.py_len a + PyStr.py_len b)%nat.
Proof.
  induction a as [|c a IH]; [reflexivity|].
  cbn [String.append PyStr.py_len]. rewrite IH. lia.
Qed.

Lemma py_len_spaces (n : nat) : PyStr.py_len (PyStr.spaces n) = n.
Proof. induction n as [|n IH]; [reflexivity|]. cbn. now rewrite IH. Qed.

Lemma py_len_ljust (s : string) (width : nat) :
  PyStr.py_len (PyStr.ljust s width) = Nat.max (PyStr.py_len s) width.
Proof.
  unfold PyStr.ljust. rewrite py_len_app, py_len_spaces. lia.
Qed.

(** X13.  A row is at least 72 characters wide, and exactly 72, so that the
    columns of the report line up, when the title has at most 22 characters,
    the actual and the target at most 10 each, and the percentage and the
    mark at most 5 each; a longer field widens the row by its excess. *)
Theorem row_width (r : result) :
  PyStr.py_len (row r)
  = (Nat.max (PyStr.py_len (title r)) 22
     + Nat.max (PyStr.py_len (actual_fmt r)) 10
     + Nat.max (PyStr.py_len (target_fmt r)) 10
     + Nat.max (PyStr.py_len (ratio_fmt r)) 5
     + Nat.max (PyStr.py_len (mark r)) 5 + 20)%nat
  /\ (72 <= PyStr.py_len (row r))%nat
  /\ ((PyStr.py_len (title r) <= 22)%nat ->
      (PyStr.py_len (actual_fmt r) <= 10)%nat ->
      (PyStr.py_len (target_fmt r) <= 10)%nat ->
      (PyStr.py_len (ratio_fmt r) <= 5)%nat ->
      (PyStr.py_len (mark r) <= 5)%nat ->
      PyStr.py_len (row r) = 72%nat).
Proof.
  assert (E : PyStr.py_len (row r)
              = (Nat.max (PyStr.py_len (title r)) 22
                 + Nat.max (PyStr.py_len (actual_fmt r)) 10
                 + Nat.max (PyStr.py_len (target_fmt r)) 10
                 + Nat.max (PyStr.py_len (ratio_fmt r)) 5
                 + Nat.max (PyStr.py_len (mark r)) 5 + 20)%nat).
  { unfold row. rewrite !py_len_app, !py_len_ljust. cbn. lia. }
  split; [exact E|]. split; [lia|]. intros. lia.
Qed.

Lemma row_width_witness :
  (PyStr.py_len "CPU Cores" <= 22)%nat /\ (PyStr.py_len "20.0" <= 10)%nat
  /\ (PyStr.py_len "100" <= 10)%nat /\ (PyStr.py_len "20 %" <= 5)%nat
  /\ (PyStr.py_len fail_mark <= 5)%nat
  /\ PyStr.py_len
       (row (mkResult (1 # 5) "20 %" "CPU Cores" "20.0" "100" fail_mark))
     = 72%nat.
Proof.
  assert (H1 : (PyStr.py_len "CPU Cores" <= 22)%nat) by (cbn; lia).
  assert (H2 : (PyStr.py_len "20.0" <= 10)%nat) by (cbn; lia).
  assert (H3 : (PyStr.py_len "100" <= 10)%nat) by (cbn; lia).
  assert (H4 : (PyStr.py_len "20 %" <= 5)%nat) by (cbn; lia).
  assert (H5 : (PyStr.py_len fail_mark <= 5)%nat) by (cbn; lia).
  repeat (split; [assumption|]).
  exact (proj2 (proj2 (row_width
                         (mkResult (1 # 5) "20 %" "CPU Cores" "20.0" "100"
                            fail_mark))) H1 H2 H3 H4 H5).
Defined.
